(** * The API gateway of the open source portal: model and properties

    The development follows the sources file by file:

    - [Js]: the fragment of JavaScript values, objects and built-ins the
      handlers rely on (truthiness, [Object.assign], spread, [delete],
      [JSON.stringify], [String.prototype.toLowerCase]);
    - [Middleware]: the error values the handlers hand to [next];
    - [VersionGate]: the API version middleware of the API router;
    - [OrgResolver]: the organization middleware of [POST /:org/repos];
    - [CreateRepo]: the asynchronous handler of [POST /:org/repos];
    - [Administration]: [requirePortalAdministrationPermission];
    - [Collaborators]: the [Collaborator] class.

    The models come first, the properties after them. *)

From Stdlib Require Import Ascii String ZArith.
From stdpp Require Import gmap strings list fin_maps pretty.

Set Default Proof Using "Type".
Open Scope string_scope.

(* ===================================================================== *)
(** * Part I: the model                                                   *)
(* ===================================================================== *)

Module Js.

(** Objects live in a store and are named by locations: two variables that
    hold the same object hold the same location. *)
Abbreviation loc := positive (only parsing).

(** The values a handler meets.  A number is an integer here (no NaN, no
    fractions); [VTypeError] is a [TypeError] instance raised by the
    runtime itself. *)
Inductive Value : Type :=
| VUndefined
| VNull
| VBool (b : bool)
| VNum (n : Z)
| VStr (s : string)
| VBigInt (n : Z)
| VTypeError (msg : string)
| VRef (l : loc).

#[global] Instance Value_eq_dec : EqDecision Value.
Proof. solve_decision. Defined.

#[global] Instance Value_inhabited : Inhabited Value := populate VUndefined.

(** An object in the store is the map of its own enumerable string-keyed
    properties; the order of the properties is not modelled (a JSON text
    lists the members in the order of the map).  The prototype of an
    object is kept aside, where a handler can change it (see
    [CreateRepo.Machine]). *)
Abbreviation Obj := (gmap string Value) (only parsing).
Abbreviation Heap := (gmap positive (gmap string Value)) (only parsing).

(** What an expression evaluates to: a value, or a thrown one. *)
Inductive Completion (A : Type) : Type :=
| Normal (a : A)
| Throw (e : Value).
Arguments Normal {A} a.
Arguments Throw {A} e.

(** [ToBoolean]: what [if (v)], [!v] and [a || b] test. *)
Definition truthy (v : Value) : bool :=
  match v with
  | VUndefined | VNull => false
  | VBool b => b
  | VNum n => negb (n =? 0)%Z
  | VStr s => negb (String.eqb s "")
  | VBigInt n => negb (n =? 0)%Z
  | VTypeError _ | VRef _ => true
  end.

(** [a || b] *)
Definition js_or (a b : Value) : Value := if truthy a then a else b.

(** [a === true] *)
Definition strict_eq_true (v : Value) : bool :=
  match v with VBool true => true | _ => false end.

(** The indexed characters a string exposes as enumerable properties. *)
Fixpoint indexed_chars (i : nat) (s : string) : gmap string Value :=
  match s with
  | EmptyString => ∅
  | String c rest => <[pretty i := VStr (String c EmptyString)]> (indexed_chars (S i) rest)
  end.

(** The own enumerable properties [Object.assign] and spread copy from a
    source: those of the object, the characters of a string, nothing for
    [undefined], [null] and the other primitives. *)
Definition ownProps (h : Heap) (v : Value) : gmap string Value :=
  match v with
  | VRef l => default ∅ (h !! l)
  | VStr s => indexed_chars 0 s
  | _ => ∅
  end.

(** [error.message]: reading a property of [undefined] or [null] throws. *)
Definition get_message (h : Heap) (v : Value) : Completion Value :=
  match v with
  | VUndefined => Throw (VTypeError "Cannot read properties of undefined (reading 'message')")
  | VNull => Throw (VTypeError "Cannot read properties of null (reading 'message')")
  | VTypeError msg => Normal (VStr msg)
  | VRef l => Normal (default VUndefined (default ∅ (h !! l) !! "message"))
  | _ => Normal VUndefined
  end.

(** ** [String.prototype.toLowerCase], on the ASCII letters *)

Definition lower_ascii (c : ascii) : ascii :=
  let n := nat_of_ascii c in
  if (65 <=? n)%nat && (n <=? 90)%nat then ascii_of_nat (n + 32) else c.

Fixpoint toLowerCase (s : string) : string :=
  match s with
  | EmptyString => EmptyString
  | String c rest => String (lower_ascii c) (toLowerCase rest)
  end.

(** [String.prototype.startsWith] *)
Definition startsWith (s p : string) : bool := String.prefix p s.

(** ** [JSON.stringify] *)

Definition dquote : string := String (ascii_of_nat 34) EmptyString.

Definition backslash : ascii := ascii_of_nat 92.

(** A hexadecimal digit, in lower case. *)
Definition hexDigit (n : nat) : ascii :=
  if (n <? 10)%nat then ascii_of_nat (48 + n) else ascii_of_nat (87 + n).

(** [QuoteJSONString], character by character: the quote and the
    backslash are escaped, a control character is written by its short
    escape or as [\u00XX]. *)
Definition escapeChar (c : ascii) : string :=
  let n := nat_of_ascii c in
  if (n =? 34)%nat || (n =? 92)%nat then String backslash (String c EmptyString)
  else if (n =? 8)%nat then String backslash "b"
  else if (n =? 9)%nat then String backslash "t"
  else if (n =? 10)%nat then String backslash "n"
  else if (n =? 12)%nat then String backslash "f"
  else if (n =? 13)%nat then String backslash "r"
  else if (n <? 32)%nat then
    String backslash
      (String "u" (String "0" (String "0"
        (String (hexDigit (n / 16)) (String (hexDigit (n mod 16)) EmptyString)))))
  else String c EmptyString.

Fixpoint escape (s : string) : string :=
  match s with
  | EmptyString => EmptyString
  | String c rest => escapeChar c ++ escape rest
  end.

Definition quote (s : string) : string := dquote ++ escape s ++ dquote.

Fixpoint join (sep : string) (l : list string) : string :=
  match l with
  | [] => ""
  | [s] => s
  | s :: rest => s ++ sep ++ join sep rest
  end.

(** The members of an object, in the order the properties are listed; a
    property whose value has no JSON text ([undefined]) is left out and
    the first member that throws ends the serialization. *)
Fixpoint members (ser : Value → Completion (option string))
    (kvs : list (string * Value)) : Completion (list string) :=
  match kvs with
  | [] => Normal []
  | (k, v) :: rest =>
      match ser v with
      | Throw e => Throw e
      | Normal None => members ser rest
      | Normal (Some s) =>
          match members ser rest with
          | Throw e => Throw e
          | Normal ss => Normal ((quote k ++ ":" ++ s) :: ss)
          end
      end
  end.

(** [SerializeJSONProperty], with the stack of the objects being
    serialized: an object met again while it is on the stack is a circular
    structure.  The recursion is on [fuel]; [JSON_stringify] gives it more
    than the nesting can use (lemma [serialize_fuel_enough]), so the case
    without fuel is not reached from there. *)
Fixpoint serializeJSONProperty (fuel : nat) (stack : list loc) (h : Heap) (v : Value)
    : Completion (option string) :=
  match v with
  | VUndefined => Normal None
  | VNull => Normal (Some "null")
  | VBool b => Normal (Some (if b then "true" else "false"))
  | VNum n => Normal (Some (pretty n))
  | VStr s => Normal (Some (quote s))
  | VBigInt _ => Throw (VTypeError "Do not know how to serialize a BigInt")
  | VTypeError _ => Normal (Some "{}")
  | VRef l =>
      if bool_decide (l ∈ stack) then
        Throw (VTypeError "Converting circular structure to JSON")
      else
        match fuel with
        | O => Throw (VTypeError "Converting circular structure to JSON")
        | S fuel' =>
            match members (serializeJSONProperty fuel' (l :: stack) h)
                    (map_to_list (default ∅ (h !! l))) with
            | Throw e => Throw e
            | Normal ss => Normal (Some ("{" ++ join "," ss ++ "}"))
            end
        end
  end.

(** [JSON.stringify(v)]: a string, or [undefined]. *)
Definition JSON_stringify (h : Heap) (v : Value) : Completion Value :=
  match serializeJSONProperty (S (size h)) [] h v with
  | Throw e => Throw e
  | Normal None => Normal VUndefined
  | Normal (Some s) => Normal (VStr s)
  end.

End Js.

Module Middleware.
Import Js.

(** Modelled from the spec: [jsonError] of [../middleware] is not among
    the sources.  The spec has every failure carry "a uniform error shape
    with an HTTP status code"; the handlers call it with a message or a
    caught error, and the status. *)
Record JsonError : Type := { error : Value; statusCode : Z }.

Definition jsonError (error : Value) (statusCode : Z) : JsonError :=
  {| error := error; statusCode := statusCode |}.

(** What a handler passes to [next]: an error made by [jsonError], or a
    value thrown inside the handler, which Express passes on for it. *)
Inductive RouteError : Type :=
| ErrJson (e : JsonError)
| ErrThrown (v : Value).

(** How a synchronous middleware ends: [next()] with the request as it
    left it, or [next(err)]. *)
Inductive Outcome (R : Type) : Type :=
| Next (req : R)
| NextError (e : RouteError).
Arguments Next {R} req.
Arguments NextError {R} e.

(** The router runs its middleware in registration order; after
    [next(err)] it skips the remaining ones and goes to the error
    handler. *)
Fixpoint run_stages {R : Type} (stages : list (R → Outcome R)) (req : R) : Outcome R :=
  match stages with
  | [] => Next req
  | stage :: later =>
      match stage req with
      | Next req' => run_stages later req'
      | NextError e => NextError e
      end
  end.

End Middleware.

Module VersionGate.
Import Js Middleware.

Record IApiRequest : Type := {
  path : string;
  query : gmap string Value;
  headers : gmap string Value;
  apiVersion : Value
}.

(** [obj[key]]: [undefined] when the key is absent. *)
Definition member (obj : gmap string Value) (key : string) : Value :=
  default VUndefined (obj !! key).

Definition hardcodedApiVersions : list string :=
  ["2019-10-01"; "2019-02-01"; "2017-09-01"; "2017-03-08"; "2016-12-01"].

(** [Array.prototype.indexOf] on strings: the first index, or -1. *)
Fixpoint indexOf (l : list string) (x : string) : Z :=
  match l with
  | [] => (-1)%Z
  | y :: rest =>
      if String.eqb y x then 0%Z
      else let i := indexOf rest x in if (i <? 0)%Z then (-1)%Z else (i + 1)%Z
  end.

(** ['text' + arr[i]]: an index out of range reads [undefined]. *)
Definition elementText (l : list string) (i : nat) : string := nth i l "undefined".

Definition isClientRoute (req : IApiRequest) : bool :=
  let path := toLowerCase (path req) in
  startsWith path "/client".

(** [apiVersion.toLowerCase()]: a method of strings only. *)
Definition call_toLowerCase (v : Value) : Completion string :=
  match v with
  | VStr s => Normal (toLowerCase s)
  | VUndefined | VNull => Throw (VTypeError "Cannot read properties of undefined (reading 'toLowerCase')")
  | _ => Throw (VTypeError "apiVersion.toLowerCase is not a function")
  end.

Definition missingVersionMessage : string :=
  "This endpoint requires that an API Version be provided.".
Definition retiredVersionMessage : string :=
  "This endpoint no longer supports the original preview version. Please update your client to use a newer version such as ".
Definition unsupportedVersionMessage : string :=
  "This endpoint does not support the API version you provided at this time.".

(** The value the middleware reads as the API version. *)
Definition suppliedVersion (req : IApiRequest) : Value :=
  js_or (member (query req) "api-version") (member (headers req) "api-version").

(** The second [router.use] of the API router. *)
Definition versionGate (req : IApiRequest) : Outcome IApiRequest :=
  if isClientRoute req then Next req
  else
    let apiVersion := suppliedVersion req in
    if negb (truthy apiVersion) then
      NextError (ErrJson (jsonError (VStr missingVersionMessage) 422))
    else
      match call_toLowerCase apiVersion with
      | Throw e => NextError (ErrThrown e)
      | Normal lowered =>
          if String.eqb lowered (toLowerCase "2016-09-22_Preview") then
            NextError (ErrJson (jsonError
              (VStr (retiredVersionMessage ++ elementText hardcodedApiVersions 0)) 422))
          else if (indexOf hardcodedApiVersions lowered <? 0)%Z then
            NextError (ErrJson (jsonError (VStr unsupportedVersionMessage) 422))
          else
            Next {| path := path req; query := query req; headers := headers req;
                    apiVersion := apiVersion |}
      end.

(** The same request with other headers. *)
Definition withHeaders (req : IApiRequest) (hs : gmap string Value) : IApiRequest :=
  {| path := path req; query := query req; headers := hs; apiVersion := apiVersion req |}.

(** The request that supplies [v] by the query and has no headers. *)
Definition queryOnly (req : IApiRequest) (v : Value) : IApiRequest :=
  {| path := path req; query := {[ "api-version" := v ]}; headers := ∅;
     apiVersion := apiVersion req |}.

(** What the middleware decided: the version it attached, or the error. *)
Definition verdict (o : Outcome IApiRequest) : Value + RouteError :=
  match o with
  | Next req' => inl (apiVersion req')
  | NextError e => inr e
  end.

(** Sample requests. *)
Definition sampleRequest (path : string) (q hd : Value) : IApiRequest :=
  {| path := path; query := {[ "api-version" := q ]};
     headers := {[ "api-version" := hd ]}; apiVersion := VUndefined |}.

End VersionGate.

Module OrgResolver.
Import Js Middleware.

(** The key token of the authenticated caller, as the middleware uses it:
    a field and a method. *)
Record ApiKeyToken : Type := {
  organizationScopes : option (list string);
  hasOrganizationScope : string → bool
}.

(** Modelled from the spec: the class of the key token is not among the
    sources.  The spec has the grants authorize an organization when they
    "include the requested organization name" or "the wildcard-all
    marker", which the middleware's comment gives as ['*']. *)
Definition grantsInclude (grants : list string) (orgName : string) : bool :=
  existsb (λ g, String.eqb g "*" || String.eqb g orgName) grants.

Definition keyToken (scopes : option (list string)) : ApiKeyToken :=
  {| organizationScopes := scopes;
     hasOrganizationScope := λ orgName,
       match scopes with
       | None => false
       | Some grants => grantsInclude grants orgName
       end |}.

(** [providers.operations]: the directory lookup throws for a name it
    does not know. *)
Record Operations : Type := { getOrganization : string → Completion Value }.

Record IApiRequest : Type := {
  params_org : string;
  apiKeyToken : ApiKeyToken;
  operations : Operations;
  organization : Value
}.

Definition misconfiguredKeyMessage : string :=
  "There is a problem with the key configuration (no organization scopes)".
Definition notAuthorizedMessage : string :=
  "The key is not authorized for this organization".

(** The middleware of the second [router.post('/:org/repos')], after the
    scope check. *)
Definition resolveOrganization (req : IApiRequest) : Outcome IApiRequest :=
  let orgName := params_org req in
  match organizationScopes (apiKeyToken req) with
  | None => NextError (ErrJson (jsonError (VStr misconfiguredKeyMessage) 412))
  | Some _ =>
      if negb (hasOrganizationScope (apiKeyToken req) orgName) then
        NextError (ErrJson (jsonError (VStr notAuthorizedMessage) 401))
      else
        match getOrganization (operations req) orgName with
        | Throw ex => NextError (ErrJson (jsonError ex 400))
        | Normal organization =>
            Next {| params_org := params_org req; apiKeyToken := apiKeyToken req;
                    operations := operations req; organization := organization |}
        end
  end.

End OrgResolver.

Module CreateRepo.
Import Js.

(** The request as the handler reads it. *)
Record ReposAppRequest : Type := {
  headers : Value;
  body : Value;
  organization : Value
}.

(** [providers.customizedNewRepositoryLogic], when a deployment has one.
    [createContext] is given the request, not the merged object; it
    returns the context or throws.  The model takes the hook to read the
    request only: it leaves the store as it is. *)
Record NewRepositoryLogic : Type := {
  createContext : ReposAppRequest → Completion Value
}.

Record Providers : Type := {
  customizedNewRepositoryLogic : option NewRepositoryLogic
}.

(** Modelled from the spec: [CreateRepositoryEntrypoint] of [./createRepo]
    is not among the sources.  The spec has a discriminator that tells the
    API call path from the others, "e.g. a UI-driven entrypoint". *)
Inductive CreateRepositoryEntrypoint : Type := Api | Client.

(** What the handler does that others can see, in order.  A telemetry
    event and the downstream call are handed an object, by reference;
    [seen] is what that object holds at the time of the call. *)
Inductive Effect : Type :=
| TrackEvent (name : string) (properties : loc) (seen : gmap string Value)
| CallCreateRepository (organization : Value) (logic : option NewRepositoryLogic)
    (customContext : Value) (payload : loc) (seen : gmap string Value)
    (entrypoint : CreateRepositoryEntrypoint)
| ResStatus (code : Z)
| ResJson (body : Value)
| CallNext (error : Value).

Record State : Type := { heap : Heap; trace : list Effect }.

(** The handler runs on the store and the trace, and on the prototype
    slots of the objects: an object without an entry has
    [Object.prototype], an entry is an object or [null]. *)
Record Machine : Type := { state : State; prototypes : gmap positive Value }.

(** Statements run on a machine and complete normally or throw. *)
Definition M (A : Type) : Type := Machine → Completion A * Machine.

#[global] Instance M_ret : MRet M := λ A a st, (Normal a, st).
#[global] Instance M_bind : MBind M := λ A B f m st,
  match m st with
  | (Normal a, st') => f a st'
  | (Throw e, st') => (Throw e, st')
  end.

(** [try { m } catch (error) { handler error }] *)
Definition try_catch {A : Type} (m : M A) (handler : Value → M A) : M A := λ st,
  match m st with
  | (Normal a, st') => (Normal a, st')
  | (Throw e, st') => handler e st'
  end.

Definition on_state (f : State → State) : M unit := λ m,
  (Normal tt, {| state := f (state m); prototypes := prototypes m |}).

Definition emit (e : Effect) : M unit :=
  on_state (λ st, {| heap := heap st; trace := trace st ++ [e] |}).

Definition update_heap (f : Heap → Heap) : M unit :=
  on_state (λ st, {| heap := f (heap st); trace := trace st |}).

(** Evaluation that reads the store and may throw. *)
Definition eval {A : Type} (f : Heap → Completion A) : M A := λ m, (f (heap (state m)), m).

(** An object literal: a new object, with [Object.prototype]. *)
Definition new_object (props : gmap string Value) : M loc := λ m,
  let l := fresh (dom (heap (state m))) in
  (Normal l,
   {| state := {| heap := <[l := props]> (heap (state m)); trace := trace (state m) |};
      prototypes := prototypes m |}).

(** Whether a property map has a key. *)
Definition hasKey (key : string) (props : gmap string Value) : bool :=
  bool_decide (is_Some (props !! key)).

(** A write [o.__proto__ = v] looks the key up along the prototype chain
    of [o].  It reaches the accessor of [Object.prototype] when no object
    on the way has the key as a property of its own and the chain does
    not end in [null]; otherwise the write makes or updates a property
    of [o]. *)
Fixpoint reachesProtoSetter (fuel : nat) (h : Heap) (protos : gmap positive Value)
    (o : loc) : bool :=
  if hasKey "__proto__" (default ∅ (h !! o)) then false
  else
    match protos !! o with
    | None => true
    | Some (VRef p) =>
        match fuel with
        | O => true
        | S fuel' => reachesProtoSetter fuel' h protos p
        end
    | Some _ => false
    end.

(** The setter of [__proto__]: an object or [null] becomes the prototype
    of [o], any other value is ignored.  (The setter throws on an object
    whose own chain leads back to [o]; the handler only assigns to an
    object it has just made, which no object of the request leads to.) *)
Definition setPrototype (o : loc) (v : Value) (protos : gmap positive Value)
    : gmap positive Value :=
  match v with
  | VRef _ | VNull => <[o := v]> protos
  | _ => protos
  end.

(** [Object.assign(target, source)]: each own property of the source is
    written to the target with an ordinary assignment, so the source's
    properties win, and an own ['__proto__'] of the source that reaches
    the setter changes the prototype of the target and is no property of
    it. *)
Definition Object_assign (target : loc) (source : Value) : M unit := λ m,
  let h := heap (state m) in
  let src := ownProps h source in
  let reached := reachesProtoSetter (size (prototypes m)) h (prototypes m) target in
  (Normal tt,
   {| state :=
        {| heap := alter (λ o, (if reached then delete "__proto__" src else src) ∪ o) target h;
           trace := trace (state m) |};
      prototypes :=
        match src !! "__proto__" with
        | Some v => if reached then setPrototype target v (prototypes m) else prototypes m
        | None => prototypes m
        end |}).

(** [delete obj.key] *)
Definition delete_property (obj : loc) (key : string) : M unit :=
  update_heap (alter (delete key) obj).

(** [obj.key = v] *)
Definition set_property (obj : loc) (key : string) (v : Value) : M unit := λ m,
  if String.eqb key "__proto__" &&
     reachesProtoSetter (size (prototypes m)) (heap (state m)) (prototypes m) obj
  then (Normal tt, {| state := state m; prototypes := setPrototype obj v (prototypes m) |})
  else update_heap (alter (<[key := v]>) obj) m.

(** [{ ...obj }]: the own properties are defined on a new object. *)
Definition spread (obj : loc) : M loc := λ m,
  new_object (ownProps (heap (state m)) (VRef obj)) m.

(** [JSON.stringify(v)] *)
Definition stringify (v : Value) : M Value := eval (λ h, JSON_stringify h v).

(** [req.insights.trackEvent({ name, properties })] *)
Definition trackEvent (name : string) (properties : loc) : M unit := λ m,
  emit (TrackEvent name properties (default ∅ (heap (state m) !! properties))) m.

Definition res_status (code : Z) : M unit := emit (ResStatus code).
Definition res_json (body : Value) : M unit := emit (ResJson body).
Definition next (error : Value) : M unit := emit (CallNext error).

(** The downstream operation: it is handed the payload object itself, may
    read and write the properties of the objects in the store, and
    resolves or rejects; it leaves the prototypes as they are. *)
Definition Downstream : Type :=
  ReposAppRequest → Value → option NewRepositoryLogic → Value → loc →
  CreateRepositoryEntrypoint → Heap → Completion Value * Heap.

(** [logic?.createContext(req)]: [undefined] without a logic. *)
Definition optional_createContext (logic : option NewRepositoryLogic)
    (req : ReposAppRequest) : Completion Value :=
  match logic with
  | None => Normal VUndefined
  | Some l => createContext l req
  end.

Section Handler.
Variable CreateRepository : Downstream.

(** [await CreateRepository(...)]: a rejection is thrown at the [await]. *)
Definition await_CreateRepository (req : ReposAppRequest) (organization : Value)
    (logic : option NewRepositoryLogic) (customContext : Value) (payload : loc)
    (entrypoint : CreateRepositoryEntrypoint) : M Value := λ m,
  let st := state m in
  let seen := default ∅ (heap st !! payload) in
  let call := CallCreateRepository organization logic customContext payload seen entrypoint in
  let '(result, h') :=
    CreateRepository req organization logic customContext payload entrypoint (heap st) in
  (result, {| state := {| heap := h'; trace := trace st ++ [call] |};
              prototypes := prototypes m |}).

(** The [try] block of the handler. *)
Definition tryBlock (req : ReposAppRequest) (organization : Value)
    (logic : option NewRepositoryLogic) (customContext : Value)
    (convergedObject : loc) : M unit :=
  repoCreateResponse ←
    await_CreateRepository req organization logic customContext convergedObject Api;
  res_status 201;;
  request ← stringify (VRef convergedObject);
  response ← stringify repoCreateResponse;
  properties ← new_object {[ "request" := request; "response" := response ]};
  trackEvent "ApiRepoCreateRequestSuccess" properties;;
  res_json repoCreateResponse.

(** Its [catch] block. *)
Definition catchBlock (convergedObject : loc) (error : Value) : M unit :=
  data ← spread convergedObject;
  message ← eval (λ h, get_message h error);
  set_property data "error" message;;
  encodedError ← stringify error;
  set_property data "encodedError" encodedError;;
  trackEvent "ApiRepoCreateFailed" data;;
  next error.

(** The asynchronous function of the third [router.post('/:org/repos')]. *)
Definition createRepoHandler (providers : Providers) (req : ReposAppRequest) : M unit :=
  let organization := organization req in
  convergedObject ← new_object ∅;
  Object_assign convergedObject (headers req);;
  trackEvent "ApiRepoCreateRequest" convergedObject;;
  Object_assign convergedObject (body req);;
  delete_property convergedObject "access_token";;
  delete_property convergedObject "authorization";;
  let logic := customizedNewRepositoryLogic providers in
  customContext ← eval (λ _, optional_createContext logic req);
  try_catch
    (tryBlock req organization logic customContext convergedObject)
    (catchBlock convergedObject).

(** [asyncHandler(fn)]: a rejection of [fn] goes to [next]. *)
Definition asyncHandler (fn : M unit) (m : Machine) : Machine :=
  match fn m with
  | (Normal _, m') => m'
  | (Throw e, m') =>
      {| state := {| heap := heap (state m'); trace := trace (state m') ++ [CallNext e] |};
         prototypes := prototypes m' |}
  end.

(** The route, run on a store whose objects have [Object.prototype], with
    an empty trace. *)
Definition runPostRepos (providers : Providers) (req : ReposAppRequest) (h : Heap)
    : Machine :=
  asyncHandler (createRepoHandler providers req)
    {| state := {| heap := h; trace := [] |}; prototypes := ∅ |}.

(** The store and the trace it ends with. *)
Definition postRepos (providers : Providers) (req : ReposAppRequest) (h : Heap) : State :=
  state (runPostRepos providers req h).

End Handler.


(** What the copy of the headers holds: [Object.assign] onto a new object
    hands an own ['__proto__'] of the headers to the setter. *)
Definition headerProps (h : Heap) (req : ReposAppRequest) : gmap string Value :=
  delete "__proto__" (ownProps h (headers req)).

(** Whether an own ['__proto__'] of the body reaches the setter: it does
    unless the headers have given the merged object a prototype that is
    [null] or has the key as a property of its own. *)
Definition bodyProtoReachesSetter (h : Heap) (req : ReposAppRequest) : bool :=
  match ownProps h (headers req) !! "__proto__" with
  | Some (VRef p) => negb (hasKey "__proto__" (default ∅ (h !! p)))
  | Some VNull => false
  | _ => true
  end.

(** The own properties of the merged object once the two keys are
    deleted: what the downstream operation is handed. *)
Definition sanitized (h : Heap) (req : ReposAppRequest) : gmap string Value :=
  delete "authorization" (delete "access_token"
    ((if bodyProtoReachesSetter h req
      then delete "__proto__" (ownProps h (body req))
      else ownProps h (body req)) ∪ headerProps h req)).

(** Where the handler allocates [convergedObject], and the store once the
    merged object has lost the two keys. *)
Definition payloadLoc (h : Heap) : loc := fresh (dom h).

Definition mergedStore (h : Heap) (req : ReposAppRequest) : Heap :=
  <[payloadLoc h := sanitized h req]> h.

(** The prototype slots at that point: the merged object has the
    prototype the two assignments gave it. *)
Definition mergedPrototypes (h : Heap) (req : ReposAppRequest) : gmap positive Value :=
  let afterHeaders :=
    match ownProps h (headers req) !! "__proto__" with
    | Some v => setPrototype (payloadLoc h) v ∅
    | None => ∅
    end in
  match ownProps h (body req) !! "__proto__" with
  | Some v =>
      if bodyProtoReachesSetter h req then setPrototype (payloadLoc h) v afterHeaders
      else afterHeaders
  | None => afterHeaders
  end.

(** The first event, with the headers as they were copied, and the
    downstream call, with the merged object. *)
Definition attemptEvent (h : Heap) (req : ReposAppRequest) : Effect :=
  TrackEvent "ApiRepoCreateRequest" (payloadLoc h) (headerProps h req).

Definition downstreamCall (providers : Providers) (req : ReposAppRequest)
    (customContext : Value) (h : Heap) : Effect :=
  CallCreateRepository (organization req) (customizedNewRepositoryLogic providers)
    customContext (payloadLoc h) (sanitized h req) Api.



(** The events of a trace, each with the properties it was given. *)
Definition events (t : list Effect) : list (string * gmap string Value) :=
  omap (λ e, match e with TrackEvent name _ seen => Some (name, seen) | _ => None end) t.

(** The calls of the downstream operation, and the payloads they were
    handed. *)
Definition calls (t : list Effect) : list Effect :=
  omap (λ e, match e with CallCreateRepository _ _ _ _ _ _ => Some e | _ => None end) t.

Definition forwarded (t : list Effect) : list (gmap string Value) :=
  omap (λ e, match e with CallCreateRepository _ _ _ _ seen _ => Some seen | _ => None end) t.

(** The body sent with [res.json], if any, and the errors given to [next]. *)
Definition sentBodies (t : list Effect) : list Value :=
  omap (λ e, match e with ResJson b => Some b | _ => None end) t.

Definition statuses (t : list Effect) : list Z :=
  omap (λ e, match e with ResStatus n => Some n | _ => None end) t.

Definition nextErrors (t : list Effect) : list Value :=
  omap (λ e, match e with CallNext err => Some err | _ => None end) t.

(** ** Sample requests and downstream operations *)

(** Headers with a bearer token at 1, a body with an access token at 2,
    the organization at 3. *)
Definition sampleStore : Heap :=
  {[ 1%positive := {[ "authorization" := VStr "Bearer secret";
                      "content-type" := VStr "application/json" ]};
     2%positive := {[ "name" := VStr "repo"; "access_token" := VStr "t0ken" ]};
     3%positive := {[ "name" := VStr "acme" ]} ]}.

Definition sampleRequest : ReposAppRequest :=
  {| headers := VRef 1; body := VRef 2; organization := VRef 3 |}.

(** The same, with a body that holds itself. *)
Definition circularBodyStore : Heap :=
  <[2%positive := {[ "name" := VStr "repo"; "self" := VRef 2 ]}]> sampleStore.


Definition noLogic : Providers := {| customizedNewRepositoryLogic := None |}.

(** A downstream operation that resolves with a new object. *)
Definition resolvesWith (props : loc → gmap string Value) : Downstream :=
  λ _ _ _ _ _ _ h, let l := fresh (dom h) in (Normal (VRef l), <[l := props l]> h).

(** One that rejects with a new object. *)
Definition rejectsWith (props : loc → gmap string Value) : Downstream :=
  λ _ _ _ _ _ _ h, let l := fresh (dom h) in (Throw (VRef l), <[l := props l]> h).

(** One that rejects with a value that is no object. *)
Definition rejectsWithValue (v : Value) : Downstream :=
  λ _ _ _ _ _ _ h, (Throw v, h).

Definition createdRepo (l : loc) : gmap string Value :=
  {[ "id" := VNum 7; "name" := VStr "repo" ]}.

Definition plainError (l : loc) : gmap string Value :=
  {[ "message" := VStr "boom"; "status" := VNum 500 ]}.

(** An error that holds itself, as errors that keep their request do. *)
Definition circularError (l : loc) : gmap string Value :=
  {[ "message" := VStr "boom"; "cause" := VRef l ]}.

End CreateRepo.

Module Administration.
Import Js.

(** Modelled from the spec: [wrapError] of [../../utils] is not among the
    sources.  The gate only builds the error and hands it to [next]; the
    error keeps what the call gave: the inner error, the message, and
    whether the message is meant for the user. *)
Record WrappedError : Type := {
  innerError : Value;
  message : string;
  userIntendedMessage : bool
}.

Definition wrapError (error : Value) (message : string) (userIntendedMessage : bool)
    : WrappedError :=
  {| innerError := error; message := message; userIntendedMessage := userIntendedMessage |}.

(** How the promise of an asynchronous call settles. *)
Inductive Settled : Type :=
| Resolved (v : Value)
| Rejected (reason : Value).

Record IndividualContext : Type := { isPortalAdministrator : Settled }.
Record ReposAppRequest : Type := { individualContext : IndividualContext }.

(** A call of [next]: [next()] or [next(err)]. *)
Inductive NextCall : Type :=
| Proceed
| Fail (err : WrappedError).

Definition denialMessage : string :=
  "These aren't the droids you are looking for. You do not have permission to be here.".

(** The calls of [next] a callback makes, or the value it throws. *)
Definition Callback : Type := Completion (list NextCall).

Definition denyRoute : list NextCall := [Fail (wrapError VNull denialMessage true)].

(** [promise.then(onFulfilled).catch(onRejected)]: [onRejected] takes a
    rejection of the promise and a throw of [onFulfilled] alike. *)
Definition then_catch (p : Settled) (onFulfilled : Value → Callback)
    (onRejected : Value → list NextCall) : list NextCall :=
  match p with
  | Resolved v =>
      match onFulfilled v with
      | Normal calls => calls
      | Throw e => onRejected e
      end
  | Rejected reason => onRejected reason
  end.

Definition requirePortalAdministrationPermission (req : ReposAppRequest) : list NextCall :=
  then_catch (isPortalAdministrator (individualContext req))
    (λ isAdmin, Normal (if strict_eq_true isAdmin then [Proceed] else denyRoute))
    (λ err, denyRoute).

(** The request of a caller whose check settles as [p]. *)
Definition adminRequest (p : Settled) : ReposAppRequest :=
  {| individualContext := {| isPortalAdministrator := p |} |}.

End Administration.

Module Collaborators.
Import Js.

Definition memberPrimaryProperties : list string :=
  ["id"; "login"; "permissions"; "avatar_url"].

(** The private fields; a field never assigned reads [undefined]. *)
Record Collaborator : Type := {
  _avatar_url : Value;
  _id : Value;
  _login : Value;
  _permissions : Value
}.

Definition unassigned : Collaborator :=
  {| _avatar_url := VUndefined; _id := VUndefined; _login := VUndefined;
     _permissions := VUndefined |}.

Section Class.
(** [GitHubRepositoryPermission] of [../interfaces] with its member [None],
    [projectCollaboratorPermissionsObjectToGitHubRepositoryPermission] of
    [../transitional] and [assignKnownFieldsPrefixed] of [./common] are not
    among the sources: they are parameters of the class. *)
Variable GitHubRepositoryPermission : Type.
Variable GitHubRepositoryPermission_None : GitHubRepositoryPermission.
Variable projectCollaboratorPermissionsObjectToGitHubRepositoryPermission :
  Value → GitHubRepositoryPermission.
Variable assignKnownFieldsPrefixed :
  Collaborator → Value → string → list string → Collaborator.

(** [new Collaborator(entity)] *)
Definition new_Collaborator (entity : Value) : Collaborator :=
  if truthy entity
  then assignKnownFieldsPrefixed unassigned entity "member" memberPrimaryProperties
  else unassigned.

Definition getHighestPermission (this : Collaborator) : GitHubRepositoryPermission :=
  if negb (truthy (_permissions this)) then GitHubRepositoryPermission_None
  else projectCollaboratorPermissionsObjectToGitHubRepositoryPermission (_permissions this).

End Class.

End Collaborators.

Module Fallback.
Import Js Middleware VersionGate.

Definition notFoundMessage : string := "The API endpoint was not found.".

Section Route.
(** [CreateError.NotFound] of [../transitional] is not among the sources:
    the error it makes is a parameter. *)
Variable NotFound : string → RouteError.

(** The last [router.use] before the error handler: what no route took. *)
Definition fallback (req : IApiRequest) : Outcome IApiRequest :=
  if isClientRoute req then Next req
  else NextError (NotFound notFoundMessage).

End Route.

End Fallback.

Module CollaboratorOrder.
Import Js Collaborators.

(** [ToString], as an argument of a string method is read; an object is
    a plain one. *)
Definition ToString (v : Value) : string :=
  match v with
  | VUndefined => "undefined"
  | VNull => "null"
  | VBool b => if b then "true" else "false"
  | VNum n => pretty n
  | VStr s => s
  | VBigInt n => pretty n
  | VTypeError msg => "TypeError: " ++ msg
  | VRef _ => "[object Object]"
  end.

(** The getter [login]. *)
Definition login (this : Collaborator) : Value := _login this.

(** [b?.login]: [undefined] for a missing [b]. *)
Definition optional_login (b : option Collaborator) : Value :=
  match b with
  | None => VUndefined
  | Some b' => login b'
  end.

Section Compare.
(** [String.prototype.localeCompare] with the locale ['en'] and the option
    [{ sensitivity: 'base' }] is the runtime's collation: a parameter. *)
Variable localeCompare : string → string → Z.

(** [compareCollaborators(a, b)]; a collaborator that is [null] or
    [undefined] is [None].  The optional chain on [a] ends the whole
    expression; the one on [b] only the argument. *)
Definition compareCollaborators (a b : option Collaborator) : Completion Value :=
  match a with
  | None => Normal VUndefined
  | Some a' =>
      match login a' with
      | VStr s => Normal (VNum (localeCompare s (ToString (optional_login b))))
      | VUndefined =>
          Throw (VTypeError "Cannot read properties of undefined (reading 'localeCompare')")
      | VNull =>
          Throw (VTypeError "Cannot read properties of null (reading 'localeCompare')")
      | _ => Throw (VTypeError "a?.login.localeCompare is not a function")
      end
  end.

End Compare.

(** A collaborator with a login. *)
Definition withLogin (s : string) : Collaborator :=
  {| _avatar_url := VUndefined; _id := VUndefined; _login := VStr s;
     _permissions := VUndefined |}.

End CollaboratorOrder.

Module Startup.
Import Js.

(** The company-specific deployment, as the router reads it:
    [routes.api.index] is only tested, [routes.api.rootIndex] is called
    with the router.  A [rootIndex] that is a function is the completion
    of that call; one that is missing is [None]. *)
Record ApiRoutes : Type := { index : Value; rootIndex : option (Completion Value) }.
Record Routes : Type := { api : option ApiRoutes }.
Record Deployment : Type := { routes : option Routes }.

(** [dynamicStartupInstance?.routes?.api]: no member when a link of the
    chain is missing. *)
Definition optional_api (d : option Deployment) : option ApiRoutes :=
  d' ← d; r ← routes d'; api r.

(** [x?.index] and the call [x?.rootIndex(router)]. *)
Definition optional_index (a : option ApiRoutes) : Value :=
  match a with
  | None => VUndefined
  | Some a' => index a'
  end.

Definition optional_rootIndex_call (a : option ApiRoutes) : Completion Value :=
  match a with
  | None => Normal VUndefined
  | Some a' =>
      match rootIndex a' with
      | None =>
          Throw (VTypeError "dynamicStartupInstance?.routes?.api?.rootIndex is not a function")
      | Some outcome => outcome
      end
  end.

(** Line 162:
    [d?.routes?.api?.index && d?.routes?.api?.rootIndex(router)]. *)
Definition hookCompanyRoutes (d : option Deployment) : Completion Value :=
  let left := optional_index (optional_api d) in
  if truthy left then optional_rootIndex_call (optional_api d) else Normal left.

(** The same deployment with another [rootIndex], where it has routes. *)
Definition withRootIndex (d : option Deployment) (f : option (Completion Value))
    : option Deployment :=
  match optional_api d with
  | None => d
  | Some a => Some {| routes := Some {| api := Some {| index := index a; rootIndex := f |} |} |}
  end.

End Startup.

Module OrgResolverSamples.
Import Js Middleware OrgResolver.

(** The same request with another directory. *)
Definition withOperations (req : IApiRequest) (ops : Operations) : IApiRequest :=
  {| params_org := params_org req; apiKeyToken := apiKeyToken req;
     operations := ops; organization := organization req |}.

(** A request for [org] by a key with the scopes [scopes], with a
    directory that answers every name with [answer]. *)
Definition keyRequest (org : string) (scopes : option (list string))
    (answer : Completion Value) : IApiRequest :=
  {| params_org := org; apiKeyToken := keyToken scopes;
     operations := {| getOrganization := λ _, answer |};
     organization := VUndefined |}.

End OrgResolverSamples.

Module CreateRepoFixtures.
Import Js CreateRepo.

(** A deployment whose [createContext] throws. *)
Definition throwingLogic : Providers :=
  {| customizedNewRepositoryLogic :=
       Some {| createContext := λ _, Throw (VStr "no context") |} |}.

(** The sample request without a body. *)
Definition bodylessRequest : ReposAppRequest :=
  {| headers := VRef 1; body := VUndefined; organization := VRef 3 |}.

(** The store a sample downstream operation [op] leaves on the sample
    request, and what it settles as. *)
Definition storeAfter (op : Downstream) : Heap :=
  (op sampleRequest (VRef 3) None VUndefined (payloadLoc sampleStore) Api
     (mergedStore sampleStore sampleRequest)).2.

(** The object an effect was handed, if any. *)
Definition handedObject (e : Effect) : option loc :=
  match e with
  | TrackEvent _ l _ => Some l
  | CallCreateRepository _ _ _ l _ _ => Some l
  | _ => None
  end.

End CreateRepoFixtures.

(* ===================================================================== *)
(** * Part II: properties                                                 *)
(* ===================================================================== *)

(** ** [JSON.stringify] *)

Section JsProperties.
Import Js.

(** The members depend on the serializer at the listed values only. *)
Lemma members_ext (ser ser' : Value → Completion (option string)) kvs :
  (∀ k v, (k, v) ∈ kvs → ser v = ser' v) → members ser kvs = members ser' kvs.
Proof.
  induction kvs as [|[k v] rest IH]; intros Hser; [done|].
  simpl. rewrite <- (Hser k v) by apply list_elem_of_here.
  rewrite IH; [done|]. intros k' v' Hin. apply (Hser k'). by apply list_elem_of_further.
Qed.

(** A member that throws makes the object throw. *)
Lemma members_throws (ser : Value → Completion (option string)) kvs k v :
  (k, v) ∈ kvs → (∃ e, ser v = Throw e) → ∃ e, members ser kvs = Throw e.
Proof.
  intros Hin [e He]. induction kvs as [|[k' v'] rest IH]; [by apply elem_of_nil in Hin|].
  apply elem_of_cons in Hin as [Heq|Hin].
  - simplify_eq. simpl. rewrite He. eauto.
  - simpl. destruct (IH Hin) as [e' He'].
    destruct (ser v') as [[s|]|e'']; rewrite ?He'; eauto.
Qed.

(** A stack of distinct objects of the store is no longer than the store. *)
Lemma stack_bound (h : gmap positive (gmap string Value)) (stack : list positive) :
  NoDup stack → (∀ l, l ∈ stack → is_Some (h !! l)) → (List.length stack ≤ size h)%nat.
Proof.
  intros Hnd Hin.
  rewrite <- (size_list_to_set (C := gset positive) stack Hnd).
  rewrite <- (size_dom (D := gset positive) h).
  apply subseteq_size. intros l Hl. apply elem_of_list_to_set in Hl.
  apply elem_of_dom. auto.
Qed.

(** With more fuel than objects off the stack, one unit more changes
    nothing. *)
Lemma serialize_fuel_step fuel stack (h : gmap positive (gmap string Value)) v :
  NoDup stack → (∀ l, l ∈ stack → is_Some (h !! l)) →
  (size h < fuel + List.length stack)%nat →
  serializeJSONProperty (S fuel) stack h v = serializeJSONProperty fuel stack h v.
Proof.
  revert stack v. induction fuel as [|fuel IH]; intros stack v Hnd Hin Hfuel.
  - pose proof (stack_bound h stack Hnd Hin). simpl in Hfuel. lia.
  - destruct v as [| | | | | | |l]; try done.
    cbn [serializeJSONProperty].
    destruct (bool_decide (l ∈ stack)) eqn:Hl; [done|].
    apply bool_decide_eq_false in Hl.
    destruct (h !! l) as [o|] eqn:Ho; [|done].
    cbn [default from_option id].
    rewrite (members_ext (serializeJSONProperty (S fuel) (l :: stack) h)
               (serializeJSONProperty fuel (l :: stack) h)); [done|].
    intros k v _. apply IH.
    + by constructor.
    + intros l' [->|Hl']%elem_of_cons; [by rewrite Ho|auto].
    + simpl. lia.
Qed.

(** [JSON_stringify] does not depend on its fuel: any larger amount gives
    the same text or the same throw. *)
Lemma serialize_fuel_enough fuel (h : gmap positive (gmap string Value)) v :
  (size h < fuel)%nat →
  serializeJSONProperty fuel [] h v = serializeJSONProperty (S (size h)) [] h v.
Proof.
  intros Hfuel.
  assert (∃ n, fuel = (n + S (size h))%nat) as [n ->] by (exists (fuel - S (size h))%nat; lia).
  clear Hfuel. induction n as [|n IH]; [done|].
  rewrite <- IH. cbn [Nat.add]. apply serialize_fuel_step.
  - constructor.
  - intros l Hl. by apply elem_of_nil in Hl.
  - simpl. lia.
Qed.

(** An object that holds itself is a circular structure. *)
Lemma self_reference_throws (h : gmap positive (gmap string Value)) l o k :
  h !! l = Some o → o !! k = Some (VRef l) → ∃ e, JSON_stringify h (VRef l) = Throw e.
Proof.
  intros Hl Hk. unfold JSON_stringify. cbn [serializeJSONProperty].
  rewrite bool_decide_eq_false_2 by apply not_elem_of_nil.
  rewrite Hl. cbn [default from_option id].
  destruct (members_throws (serializeJSONProperty (size h) [l] h) (map_to_list o) k (VRef l))
    as [e He].
  - by apply elem_of_map_to_list.
  - destruct (size h); simpl; rewrite bool_decide_eq_true_2 by apply list_elem_of_here; eauto.
  - rewrite He. eauto.
Qed.

End JsProperties.

(** ** The version gate *)

Section VersionGateProperties.
Import Js Middleware VersionGate.

Lemma run_stages_error {R : Type} (stage : R → Outcome R) later req e :
  stage req = NextError e → run_stages (stage :: later) req = NextError e.
Proof. intros H. simpl. by rewrite H. Qed.

Lemma toLowerCase_nonempty s t : toLowerCase s = t → t ≠ "" → s ≠ "".
Proof. intros <- Hne ->. by apply Hne. Qed.

Lemma suppliedVersion_query req :
  truthy (member (query req) "api-version") = true →
  suppliedVersion req = member (query req) "api-version".
Proof. intros H. unfold suppliedVersion, js_or. by rewrite H. Qed.

Lemma suppliedVersion_header req :
  truthy (member (query req) "api-version") = false →
  suppliedVersion req = member (headers req) "api-version".
Proof. intros H. unfold suppliedVersion, js_or. by rewrite H. Qed.

(** A client path passes unchanged, with or without a version. *)
Lemma versionGate_client_route req :
  isClientRoute req = true → versionGate req = Next req.
Proof. intros H. unfold versionGate. by rewrite H. Qed.

(** On a non-client path the middleware decides on the supplied value
    alone. *)
Lemma versionGate_verdict req :
  isClientRoute req = false →
  verdict (versionGate req) =
    let apiVersion := suppliedVersion req in
    if negb (truthy apiVersion) then
      inr (ErrJson (jsonError (VStr missingVersionMessage) 422))
    else
      match call_toLowerCase apiVersion with
      | Throw e => inr (ErrThrown e)
      | Normal lowered =>
          if String.eqb lowered "2016-09-22_preview" then
            inr (ErrJson (jsonError (VStr (retiredVersionMessage ++ "2019-10-01")) 422))
          else if (indexOf hardcodedApiVersions lowered <? 0)%Z then
            inr (ErrJson (jsonError (VStr unsupportedVersionMessage) 422))
          else inl apiVersion
      end.
Proof.
  intros Hclient. unfold versionGate. rewrite Hclient. cbv zeta.
  destruct (negb (truthy (suppliedVersion req))); [done|].
  destruct (call_toLowerCase (suppliedVersion req)) as [lowered|e]; [|done].
  change (toLowerCase "2016-09-22_Preview") with "2016-09-22_preview".
  destruct (String.eqb lowered "2016-09-22_preview"); [done|].
  by destruct (indexOf hardcodedApiVersions lowered <? 0)%Z.
Qed.

Lemma indexOf_bounds l x : (-1 ≤ indexOf l x)%Z.
Proof.
  induction l as [|y rest IH]; simpl; [lia|].
  destruct (String.eqb y x); [lia|].
  destruct (indexOf rest x <? 0)%Z eqn:E; [lia|]. apply Z.ltb_ge in E. lia.
Qed.

(** [indexOf] is negative exactly for a string that is not in the list. *)
Lemma indexOf_negative l x : (indexOf l x <? 0)%Z = true ↔ x ∉ l.
Proof.
  induction l as [|y rest IH]; simpl.
  - split; [intros _; apply not_elem_of_nil|done].
  - rewrite not_elem_of_cons. destruct (String.eqb y x) eqn:Hy.
    + apply String.eqb_eq in Hy. subst. split; [done|]. by intros [? _].
    + apply String.eqb_neq in Hy.
      destruct (indexOf rest x <? 0)%Z eqn:E.
      * split; [|done]. intros _. split; [done|]. by apply IH.
      * pose proof (indexOf_bounds rest x). apply Z.ltb_ge in E.
        split.
        -- intros H'. apply Z.ltb_lt in H'. lia.
        -- intros [_ Hnot]. apply IH in Hnot. done.
Qed.

(** What the middleware does with a version supplied as a string. *)
Lemma versionGate_string req v :
  isClientRoute req = false → suppliedVersion req = VStr v →
  versionGate req =
    if String.eqb v "" then
      NextError (ErrJson (jsonError (VStr missingVersionMessage) 422))
    else if String.eqb (toLowerCase v) "2016-09-22_preview" then
      NextError (ErrJson (jsonError (VStr (retiredVersionMessage ++ "2019-10-01")) 422))
    else if (indexOf hardcodedApiVersions (toLowerCase v) <? 0)%Z then
      NextError (ErrJson (jsonError (VStr unsupportedVersionMessage) 422))
    else
      Next {| path := path req; query := query req; headers := headers req;
              apiVersion := VStr v |}.
Proof.
  intros Hclient Hv. unfold versionGate. rewrite Hclient, Hv. cbv zeta.
  cbn [truthy call_toLowerCase]. by destruct (String.eqb v "").
Qed.

(** C5: on a non-client path the API version is the [api-version] query
    parameter, or the [api-version] header when the query supplies no
    value.  The version attached to a request that passes is that value;
    when the query supplies one the headers do not change what the
    middleware decides; when neither supplies one the request fails with
    the missing-version error and status 422, whatever middleware is
    registered later, none of which runs; the middleware decides on that
    value alone, as it would had the value come by the query of a request
    without headers; and a request whose value, by the query or by the
    header, is a string that is in the allow-list in lower case passes
    with that string attached. *)
Theorem version_gate_query_then_header (req : IApiRequest) :
  isClientRoute req = false →
  let q := member (query req) "api-version" in
  let hd := member (headers req) "api-version" in
  (∀ req', versionGate req = Next req' →
     apiVersion req' = (if truthy q then q else hd)) ∧
  (truthy q = true →
     ∀ hs, verdict (versionGate (withHeaders req hs)) = verdict (versionGate req)) ∧
  (truthy q = false → truthy hd = false →
     ∀ later, run_stages (versionGate :: later) req =
       NextError (ErrJson (jsonError (VStr missingVersionMessage) 422))) ∧
  verdict (versionGate req) =
    verdict (versionGate (queryOnly req (if truthy q then q else hd))) ∧
  (∀ v, (if truthy q then q else hd) = VStr v →
     toLowerCase v ∈ hardcodedApiVersions →
     versionGate req =
       Next {| path := path req; query := query req; headers := headers req;
               apiVersion := VStr v |}).
Proof.
  intros Hclient q hd.
  assert (suppliedVersion req = if truthy q then q else hd) as Hsupplied by reflexivity.
  split; [|split; [|split; [|split]]].
  - intros req' Hnext.
    pose proof (versionGate_verdict req Hclient) as Hv.
    rewrite Hnext in Hv. cbv zeta in Hv. cbn [verdict] in Hv.
    rewrite <- Hsupplied.
    destruct (negb (truthy (suppliedVersion req))); [done|].
    destruct (call_toLowerCase (suppliedVersion req)) as [lowered|e]; [|done].
    destruct (String.eqb lowered "2016-09-22_preview"); [done|].
    destruct (indexOf hardcodedApiVersions lowered <? 0)%Z; [done|].
    by injection Hv.
  - intros Hq hs.
    rewrite !versionGate_verdict by done.
    assert (suppliedVersion (withHeaders req hs) = suppliedVersion req) as ->; [|done].
    rewrite !suppliedVersion_query; done.
  - intros Hq Hhd later. apply run_stages_error.
    unfold versionGate. rewrite Hclient. cbv zeta.
    rewrite suppliedVersion_header by done. fold hd. by rewrite Hhd.
  - rewrite <- Hsupplied.
    rewrite (versionGate_verdict req Hclient).
    rewrite (versionGate_verdict (queryOnly req (suppliedVersion req)) Hclient).
    cbv zeta.
    assert (suppliedVersion (queryOnly req (suppliedVersion req)) =
            if truthy (suppliedVersion req) then suppliedVersion req else VUndefined)
      as -> by (unfold suppliedVersion at 1, queryOnly, member, js_or; cbn [query headers];
                by rewrite lookup_singleton_eq, lookup_empty).
    by destruct (truthy (suppliedVersion req)) eqn:Ht; cbn [negb truthy]; rewrite ?Ht.
  - intros v Hv Hin. rewrite <- Hsupplied in Hv.
    rewrite (versionGate_string req v Hclient Hv).
    destruct (String.eqb v "") eqn:Hempty.
    { apply String.eqb_eq in Hempty. subst v. exfalso.
      unfold hardcodedApiVersions in Hin.
      repeat (apply elem_of_cons in Hin as [Hin|Hin]; [discriminate Hin|]).
      by apply elem_of_nil in Hin. }
    destruct (String.eqb (toLowerCase v) "2016-09-22_preview") eqn:Hretired.
    { apply String.eqb_eq in Hretired. rewrite Hretired in Hin. exfalso.
      unfold hardcodedApiVersions in Hin.
      repeat (apply elem_of_cons in Hin as [Hin|Hin]; [discriminate Hin|]).
      by apply elem_of_nil in Hin. }
    destruct (indexOf hardcodedApiVersions (toLowerCase v) <? 0)%Z eqn:Hidx; [|done].
    apply indexOf_negative in Hidx. by destruct Hidx.
Qed.

(** The query wins over the header on a sample request, a request with
    neither fails with the missing-version error, and a request with a
    version in the header alone passes with that version. *)
Lemma version_gate_query_then_header_witness :
  let req := sampleRequest "/acme/repos" (VStr "2019-10-01") (VStr "2016-12-01") in
  let bare := {| path := "/acme/repos"; query := ∅; headers := ∅;
                 apiVersion := VUndefined |} in
  let byHeader := {| path := "/acme/repos"; query := ∅;
                     headers := {[ "api-version" := VStr "2017-03-08" ]};
                     apiVersion := VUndefined |} in
  versionGate req =
    Next {| path := "/acme/repos"; query := query req; headers := headers req;
            apiVersion := VStr "2019-10-01" |} ∧
  (∀ req', versionGate req = Next req' → apiVersion req' = VStr "2019-10-01") ∧
  run_stages [versionGate; versionGate] bare =
    NextError (ErrJson (jsonError (VStr missingVersionMessage) 422)) ∧
  versionGate byHeader =
    Next {| path := "/acme/repos"; query := ∅;
            headers := {[ "api-version" := VStr "2017-03-08" ]};
            apiVersion := VStr "2017-03-08" |} ∧
  verdict (versionGate byHeader) = inl (VStr "2017-03-08").
Proof.
  pose (byHeader := {| path := "/acme/repos"; query := ∅;
                       headers := {[ "api-version" := VStr "2017-03-08" ]};
                       apiVersion := VUndefined |}).
  split; [reflexivity|]. split; [|split; [|split]].
  - exact (proj1 (version_gate_query_then_header
      (sampleRequest "/acme/repos" (VStr "2019-10-01") (VStr "2016-12-01")) eq_refl)).
  - exact (proj1 (proj2 (proj2 (version_gate_query_then_header
      {| path := "/acme/repos"; query := ∅; headers := ∅; apiVersion := VUndefined |}
      eq_refl))) eq_refl eq_refl [versionGate]).
  - apply (proj2 (proj2 (proj2 (proj2 (version_gate_query_then_header byHeader eq_refl))))
             "2017-03-08" eq_refl).
    apply list_elem_of_In. simpl. auto 10.
  - exact (eq_trans
      (proj1 (proj2 (proj2 (proj2 (version_gate_query_then_header byHeader eq_refl)))))
      eq_refl).
Defined.

Lemma suppliedVersion_string req v :
  v ≠ "" →
  member (query req) "api-version" = VStr v ∨
  (truthy (member (query req) "api-version") = false ∧
   member (headers req) "api-version" = VStr v) →
  suppliedVersion req = VStr v.
Proof.
  intros Hv [Hq|[Hq Hh]].
  - rewrite suppliedVersion_query; [done|]. rewrite Hq. simpl.
    by destruct v.
  - by rewrite suppliedVersion_header.
Qed.

(** C6: on a non-client path, a request that supplies the retired version
    ['2016-09-22_Preview'] in any letter case, by the query or (the query
    supplying no value) by the header, fails with status 422 and a message
    that ends with the first entry of the allow-list, ['2019-10-01'];
    nothing registered later runs. *)
Theorem version_gate_retired (req : IApiRequest) (v : string) :
  isClientRoute req = false →
  member (query req) "api-version" = VStr v ∨
  (truthy (member (query req) "api-version") = false ∧
   member (headers req) "api-version" = VStr v) →
  toLowerCase v = toLowerCase "2016-09-22_Preview" →
  (∀ later, run_stages (versionGate :: later) req =
     NextError (ErrJson (jsonError (VStr (retiredVersionMessage ++ "2019-10-01")) 422))) ∧
  hardcodedApiVersions !! 0%nat = Some "2019-10-01".
Proof.
  intros Hclient Hsupplied Hlower. split; [|done].
  intros later. apply run_stages_error.
  assert (v ≠ "") as Hne by (by eapply toLowerCase_nonempty).
  unfold versionGate. rewrite Hclient. cbv zeta.
  rewrite (suppliedVersion_string req v Hne Hsupplied).
  assert (truthy (VStr v) = true) as -> by (by destruct v).
  cbn [negb call_toLowerCase]. rewrite Hlower.
  by rewrite String.eqb_refl.
Qed.

(** The retired version in capitals, by the query. *)
Lemma version_gate_retired_witness :
  run_stages [versionGate; versionGate]
    (sampleRequest "/acme/repos" (VStr "2016-09-22_PREVIEW") (VStr "2019-10-01")) =
  NextError (ErrJson (jsonError (VStr (retiredVersionMessage ++ "2019-10-01")) 422)).
Proof.
  exact (proj1 (version_gate_retired
    (sampleRequest "/acme/repos" (VStr "2016-09-22_PREVIEW") (VStr "2019-10-01"))
    "2016-09-22_PREVIEW" eq_refl (or_introl eq_refl) eq_refl) [versionGate]).
Defined.

End VersionGateProperties.

(** ** The organization middleware *)

Section OrgResolverProperties.
Import Js Middleware OrgResolver.

(** The checks, in the order the middleware makes them, for any token. *)
Lemma resolveOrganization_cases (req : IApiRequest) :
  resolveOrganization req =
    match organizationScopes (apiKeyToken req) with
    | None => NextError (ErrJson (jsonError (VStr misconfiguredKeyMessage) 412))
    | Some _ =>
        if hasOrganizationScope (apiKeyToken req) (params_org req) then
          match getOrganization (operations req) (params_org req) with
          | Throw ex => NextError (ErrJson (jsonError ex 400))
          | Normal o =>
              Next {| params_org := params_org req; apiKeyToken := apiKeyToken req;
                      operations := operations req; organization := o |}
          end
        else NextError (ErrJson (jsonError (VStr notAuthorizedMessage) 401))
    end.
Proof.
  unfold resolveOrganization. cbv zeta.
  destruct (organizationScopes (apiKeyToken req)); [|done].
  by destruct (hasOrganizationScope (apiKeyToken req) (params_org req)).
Qed.

Lemma grantsInclude_true grants orgName :
  grantsInclude grants orgName = true ↔ orgName ∈ grants ∨ "*" ∈ grants.
Proof.
  unfold grantsInclude. rewrite existsb_exists. split.
  - intros (g & Hin & Hg). apply list_elem_of_In in Hin.
    apply orb_true_iff in Hg as [Hg|Hg]; apply String.eqb_eq in Hg; subst; auto.
  - intros [H|H]; apply list_elem_of_In in H.
    + exists orgName. split; [done|]. rewrite String.eqb_refl. apply orb_true_r.
    + exists "*". by split.
Qed.

Lemma grantsInclude_false grants orgName :
  orgName ∉ grants → "*" ∉ grants → grantsInclude grants orgName = false.
Proof.
  intros H1 H2. apply not_true_is_false. rewrite grantsInclude_true. tauto.
Qed.

(** C7: the middleware checks in a fixed order.  A token with no
    organization scopes fails with 412, whatever the organization and the
    directory; a token whose grants hold neither the requested name nor
    ['*'] fails with 401, whatever the directory; with a grant, a lookup
    that throws fails with 400 around the thrown error; otherwise the
    organization the lookup returned is attached to the request. *)
Theorem resolve_organization_order (scopes : option (list string)) (orgName : string)
    (ops : Operations) (org0 : Value) :
  let req := {| params_org := orgName; apiKeyToken := keyToken scopes;
                operations := ops; organization := org0 |} in
  (scopes = None →
     resolveOrganization req =
       NextError (ErrJson (jsonError (VStr misconfiguredKeyMessage) 412))) ∧
  (∀ grants, scopes = Some grants → orgName ∉ grants → "*" ∉ grants →
     resolveOrganization req =
       NextError (ErrJson (jsonError (VStr notAuthorizedMessage) 401))) ∧
  (∀ grants ex, scopes = Some grants → orgName ∈ grants ∨ "*" ∈ grants →
     getOrganization ops orgName = Throw ex →
     resolveOrganization req = NextError (ErrJson (jsonError ex 400))) ∧
  (∀ grants o, scopes = Some grants → orgName ∈ grants ∨ "*" ∈ grants →
     getOrganization ops orgName = Normal o →
     resolveOrganization req =
       Next {| params_org := orgName; apiKeyToken := keyToken scopes;
               operations := ops; organization := o |}).
Proof.
  intros req. rewrite resolveOrganization_cases. subst req. cbn.
  repeat split.
  - by intros ->.
  - intros grants -> H1 H2. by rewrite grantsInclude_false.
  - intros grants ex -> Hin Hex.
    apply grantsInclude_true in Hin. by rewrite Hin, Hex.
  - intros grants o -> Hin Ho.
    apply grantsInclude_true in Hin. by rewrite Hin, Ho.
Qed.

(** The spec's own examples: grants [orgA] asked for [orgB], and the
    wildcard. *)
Example resolve_organization_orgA_orgB ops :
  resolveOrganization {| params_org := "orgB"; apiKeyToken := keyToken (Some ["orgA"]);
                         operations := ops; organization := VUndefined |} =
  NextError (ErrJson (jsonError (VStr notAuthorizedMessage) 401)).
Proof. reflexivity. Qed.

Example resolve_organization_wildcard :
  resolveOrganization {| params_org := "acme"; apiKeyToken := keyToken (Some ["*"]);
                         operations := {| getOrganization := λ _, Normal (VRef 1) |};
                         organization := VUndefined |} =
  Next {| params_org := "acme"; apiKeyToken := keyToken (Some ["*"]);
          operations := {| getOrganization := λ _, Normal (VRef 1) |};
          organization := VRef 1 |}.
Proof. reflexivity. Qed.

End OrgResolverProperties.

(** ** The administrative permission gate *)

Section AdministrationProperties.
Import Js Administration.

Lemma strict_eq_true_spec v : strict_eq_true v = true ↔ v = VBool true.
Proof.
  split; [|by intros ->].
  destruct v as [| |[]| | | | |]; simpl; congruence.
Qed.

Lemma gate_resolved v :
  requirePortalAdministrationPermission (adminRequest (Resolved v)) =
    if strict_eq_true v then [Proceed] else denyRoute.
Proof. reflexivity. Qed.

(** C8: the gate calls [next()] exactly when [isPortalAdministrator()]
    resolves to [true]; when it resolves to [false] and when it rejects,
    whatever the reason, the gate calls [next] once with the same error:
    the fixed message, no inner error. *)
Theorem admin_gate_allows_iff_true (p : Settled) :
  (requirePortalAdministrationPermission (adminRequest p) = [Proceed] ↔
     p = Resolved (VBool true)) ∧
  requirePortalAdministrationPermission (adminRequest (Resolved (VBool false))) =
    [Fail (wrapError VNull denialMessage true)] ∧
  (∀ reason,
     requirePortalAdministrationPermission (adminRequest (Rejected reason)) =
       [Fail (wrapError VNull denialMessage true)]) ∧
  (p ≠ Resolved (VBool true) →
     requirePortalAdministrationPermission (adminRequest p) =
       [Fail (wrapError VNull denialMessage true)]).
Proof.
  repeat split.
  - destruct p as [v|reason]; [|done].
    rewrite gate_resolved. destruct (strict_eq_true v) eqn:Hv; [|done].
    apply strict_eq_true_spec in Hv. by subst.
  - by intros ->.
  - destruct p as [v|reason]; [|done].
    intros Hp. rewrite gate_resolved.
    destruct (strict_eq_true v) eqn:Hv; [|done].
    apply strict_eq_true_spec in Hv. by subst.
Qed.

(** C10: the comparison is strict: a resolved value other than the
    boolean [true], truthy or not, is denied exactly as [false] is. *)
Theorem admin_gate_strict_equality (v : Value) :
  v ≠ VBool true →
  requirePortalAdministrationPermission (adminRequest (Resolved v)) =
  requirePortalAdministrationPermission (adminRequest (Resolved (VBool false))).
Proof.
  intros Hv. rewrite !gate_resolved.
  destruct (strict_eq_true v) eqn:E; [|done].
  by apply strict_eq_true_spec in E.
Qed.

(** The number 1 and a non-empty string are truthy and denied. *)
Lemma admin_gate_strict_equality_witness :
  truthy (VNum 1) = true ∧ truthy (VStr "true") = true ∧
  requirePortalAdministrationPermission (adminRequest (Resolved (VNum 1))) =
    requirePortalAdministrationPermission (adminRequest (Resolved (VBool false))) ∧
  requirePortalAdministrationPermission (adminRequest (Resolved (VStr "true"))) =
    [Fail (wrapError VNull denialMessage true)].
Proof.
  split; [reflexivity|]. split; [reflexivity|]. split.
  - apply (admin_gate_strict_equality (VNum 1)). discriminate.
  - apply (admin_gate_strict_equality (VStr "true")). discriminate.
Defined.

End AdministrationProperties.

(** ** The collaborator class *)

Section CollaboratorProperties.
Import Js Collaborators.
Context {P : Type} (none : P) (project : Value → P)
  (assign : Collaborator → Value → string → list string → Collaborator).

(** C9: [getHighestPermission] returns the [None] member when the
    collaborator has no permissions object, as a collaborator made from
    [null], [undefined] or any other falsy entity has none, and
    the projection of the permissions object otherwise. *)
Theorem getHighestPermission_none_or_projection :
  (∀ c, truthy (_permissions c) = false →
     getHighestPermission P none project c = none) ∧
  (∀ c, truthy (_permissions c) = true →
     getHighestPermission P none project c = project (_permissions c)) ∧
  (∀ entity, truthy entity = false →
     _permissions (new_Collaborator assign entity) = VUndefined ∧
     getHighestPermission P none project (new_Collaborator assign entity) = none) ∧
  getHighestPermission P none project (new_Collaborator assign VNull) = none ∧
  getHighestPermission P none project (new_Collaborator assign VUndefined) = none.
Proof.
  split; [|split; [|split; [|done]]].
  - intros c Hc. unfold getHighestPermission. by rewrite Hc.
  - intros c Hc. unfold getHighestPermission. by rewrite Hc.
  - intros entity Hfalsy. unfold getHighestPermission, new_Collaborator.
    by rewrite Hfalsy.
Qed.

End CollaboratorProperties.

(** ** What [JSON.stringify] throws *)

Section JsCoverage.
Import Js.

Lemma members_throw_inv (P : Value → Prop) (ser : Value → Completion (option string))
    kvs e :
  (∀ v e', ser v = Throw e' → P e') → members ser kvs = Throw e → P e.
Proof.
  intros Hser. induction kvs as [|[k v] rest IH]; [done|].
  simpl. destruct (ser v) as [[s|]|e'] eqn:Hv.
  - destruct (members ser rest); [done|]. intros [= <-]. by apply IH.
  - done.
  - intros [= <-]. by eapply Hser.
Qed.

Lemma serialize_throws_TypeError fuel stack (h : gmap positive (gmap string Value)) v e :
  serializeJSONProperty fuel stack h v = Throw e → ∃ msg, e = VTypeError msg.
Proof.
  revert stack v e. induction fuel as [|fuel IH]; intros stack v e.
  - destruct v as [| | | | | | |l]; simpl; try done.
    + intros [= <-]. eauto.
    + destruct (bool_decide (l ∈ stack)); intros [= <-]; eauto.
  - destruct v as [| | | | | | |l]; simpl; try done.
    + intros [= <-]. eauto.
    + destruct (bool_decide (l ∈ stack)); [intros [= <-]; eauto|].
      destruct (members _ _) as [ss|e'] eqn:Hm; [done|].
      intros [= <-].
      apply (members_throw_inv (λ e, ∃ msg, e = VTypeError msg) _ _ _ (IH (l :: stack)) Hm).
Qed.

(** Whatever [JSON.stringify] throws is a [TypeError]. *)
Lemma JSON_stringify_throws_TypeError (h : gmap positive (gmap string Value)) v e :
  JSON_stringify h v = Throw e → ∃ msg, e = VTypeError msg.
Proof.
  unfold JSON_stringify.
  destruct (serializeJSONProperty _ _ _ _) as [[s|]|e'] eqn:Hs; try done.
  intros [= <-]. by eapply serialize_throws_TypeError.
Qed.

End JsCoverage.

(** ** The handler of [POST /:org/repos] *)

Section CreateRepoProperties.
Import Js CreateRepo.
Variable CreateRepository : Downstream.

Lemma payloadLoc_fresh (h : gmap positive (gmap string Value)) :
  h !! payloadLoc h = None.
Proof.
  apply (not_elem_of_dom (D := gset positive)). unfold payloadLoc. apply is_fresh.
Qed.

Lemma fresh_not_allocated (h : gmap positive (gmap string Value)) l :
  is_Some (h !! l) → fresh (dom h) ≠ l.
Proof.
  intros Hl <-. pose proof (payloadLoc_fresh h) as Hf. unfold payloadLoc in Hf.
  rewrite Hf in Hl. by destruct Hl.
Qed.

(** Copying from a source gives the same whether or not the target, just
    allocated, is already in the store. *)
Lemma ownProps_fresh_proto (h : gmap positive (gmap string Value)) o v :
  o !! "__proto__" = None →
  ownProps (<[payloadLoc h := o]> h) v !! "__proto__" = ownProps h v !! "__proto__".
Proof.
  intros Ho. destruct v as [| | | | | | |l]; try done. simpl.
  destruct (decide (l = payloadLoc h)) as [->|Hne].
  - rewrite lookup_insert_eq. simpl. by rewrite payloadLoc_fresh.
  - by rewrite lookup_insert_ne.
Qed.

Lemma ownProps_fresh (h : gmap positive (gmap string Value)) o v (r : bool) :
  o !! "__proto__" = None →
  (if r then delete "__proto__" (ownProps (<[payloadLoc h := o]> h) v)
   else ownProps (<[payloadLoc h := o]> h) v) ∪ o =
  (if r then delete "__proto__" (ownProps h v) else ownProps h v) ∪ o.
Proof.
  intros Ho. destruct v as [| | | | | | |l]; try done. simpl.
  destruct (decide (l = payloadLoc h)) as [->|Hne].
  - rewrite lookup_insert_eq. simpl. rewrite payloadLoc_fresh. simpl.
    rewrite delete_empty, (delete_id o) by done.
    destruct r; by rewrite map_union_idemp, map_empty_union.
  - by rewrite lookup_insert_ne.
Qed.

Lemma hasKey_None key (o : gmap string Value) : o !! key = None → hasKey key o = false.
Proof. intros Ho. unfold hasKey. rewrite Ho. by apply bool_decide_eq_false_2, is_Some_None. Qed.

Lemma hasKey_Some key (o : gmap string Value) v : o !! key = Some v → hasKey key o = true.
Proof. intros Ho. unfold hasKey. rewrite Ho. by apply bool_decide_eq_true_2. Qed.

(** The write of ['__proto__'] onto the new, empty object reaches the
    setter. *)
Lemma reachesProtoSetter_new (h : gmap positive (gmap string Value)) fuel o :
  o !! "__proto__" = None →
  reachesProtoSetter fuel (<[payloadLoc h := o]> h) ∅ (payloadLoc h) = true.
Proof.
  intros Ho. destruct fuel; simpl; rewrite lookup_insert_eq; simpl;
    by rewrite (hasKey_None _ _ Ho).
Qed.

(** The write of ['__proto__'] from the body, after the headers were
    copied. *)
Lemma reachesProtoSetter_body h req :
  let afterHeaders : gmap positive Value :=
    match ownProps h (headers req) !! "__proto__" with
    | Some v => setPrototype (payloadLoc h) v ∅
    | None => ∅
    end in
  reachesProtoSetter (size afterHeaders) (<[payloadLoc h := headerProps h req]> h)
    afterHeaders (payloadLoc h) = bodyProtoReachesSetter h req.
Proof.
  intros afterHeaders. subst afterHeaders. unfold bodyProtoReachesSetter.
  assert (headerProps h req !! "__proto__" = None) as Ho by apply lookup_delete_eq.
  destruct (ownProps h (headers req) !! "__proto__") as [[| | | | | | |p]|];
    cbn [setPrototype]; rewrite ?insert_empty; try by apply reachesProtoSetter_new.
  - rewrite map_size_singleton. simpl. rewrite lookup_insert_eq. simpl.
    rewrite (hasKey_None _ _ Ho). by rewrite lookup_singleton_eq.
  - rewrite map_size_singleton. simpl. rewrite lookup_insert_eq. simpl.
    rewrite (hasKey_None _ _ Ho), lookup_singleton_eq.
    destruct (decide (p = payloadLoc h)) as [->|Hne].
    + rewrite lookup_insert_eq. simpl. rewrite (hasKey_None _ _ Ho), lookup_singleton_eq.
      rewrite payloadLoc_fresh. simpl. by rewrite hasKey_None.
    + rewrite lookup_insert_ne by done.
      destruct (hasKey "__proto__" (default ∅ (h !! p))); [done|].
      by rewrite lookup_singleton_ne.
Qed.

Lemma mergedStore_payload h req :
  mergedStore h req !! payloadLoc h = Some (sanitized h req).
Proof. apply lookup_insert_eq. Qed.

(** Lines 200 to 206: the merged object is allocated, the first event is
    emitted with the headers alone, the body is merged in and the two keys
    are deleted; then the context is built. *)
Lemma handler_prefix providers req h :
  createRepoHandler CreateRepository providers req
    {| state := {| heap := h; trace := [] |}; prototypes := ∅ |} =
  let m1 := {| state := {| heap := mergedStore h req; trace := [attemptEvent h req] |};
               prototypes := mergedPrototypes h req |} in
  match optional_createContext (customizedNewRepositoryLogic providers) req with
  | Throw e => (Throw e, m1)
  | Normal customContext =>
      try_catch
        (tryBlock CreateRepository req (organization req)
           (customizedNewRepositoryLogic providers) customContext (payloadLoc h))
        (catchBlock (payloadLoc h)) m1
  end.
Proof.
  assert (headerProps h req !! "__proto__" = None) as Ho by apply lookup_delete_eq.
  unfold createRepoHandler.
  cbv [mbind M_bind new_object Object_assign update_heap on_state trackEvent emit
       delete_property eval heap trace state prototypes].
  cbn [app]. fold (payloadLoc h).
  rewrite reachesProtoSetter_new by done.
  rewrite (ownProps_fresh_proto h ∅ (headers req)) by done.
  rewrite !alter_insert_eq, lookup_insert_eq. cbn [from_option id].
  pose proof (ownProps_fresh h ∅ (headers req) true) as Hh.
  rewrite !map_union_empty in Hh. rewrite !map_union_empty, Hh by done.
  fold (headerProps h req).
  rewrite (reachesProtoSetter_body h req).
  rewrite (ownProps_fresh_proto h _ (body req)) by done.
  rewrite (ownProps_fresh h _ (body req)) by done.
  fold (sanitized h req). fold (mergedStore h req). fold (attemptEvent h req).
  fold (mergedPrototypes h req).
  by destruct (optional_createContext _ _).
Qed.

(** The [try] block, statement by statement. *)
Lemma tryBlock_run req org logic ctx c h t ps :
  tryBlock CreateRepository req org logic ctx c
    {| state := {| heap := h; trace := t |}; prototypes := ps |} =
  let call := CallCreateRepository org logic ctx c (default ∅ (h !! c)) Api in
  let machine st := {| state := st; prototypes := ps |} in
  let '(r, h2) := CreateRepository req org logic ctx c Api h in
  match r with
  | Throw e => (Throw e, machine {| heap := h2; trace := t ++ [call] |})
  | Normal resp =>
      match JSON_stringify h2 (VRef c) with
      | Throw e => (Throw e, machine {| heap := h2; trace := t ++ [call; ResStatus 201] |})
      | Normal request =>
          match JSON_stringify h2 resp with
          | Throw e =>
              (Throw e, machine {| heap := h2; trace := t ++ [call; ResStatus 201] |})
          | Normal response =>
              let p := fresh (dom h2) in
              let props : gmap string Value :=
                {[ "request" := request; "response" := response ]} in
              (Normal tt,
               machine
                 {| heap := <[p := props]> h2;
                    trace := t ++ [call; ResStatus 201;
                                   TrackEvent "ApiRepoCreateRequestSuccess" p props;
                                   ResJson resp] |})
          end
      end
  end.
Proof.
  unfold tryBlock.
  cbv [mbind M_bind await_CreateRepository res_status res_json new_object
       trackEvent emit on_state stringify eval heap trace state prototypes].
  cbv zeta.
  destruct (CreateRepository req org logic ctx c Api h) as [[resp|e] h2]; [|done].
  rewrite <- !app_assoc. cbn [app].
  destruct (JSON_stringify h2 (VRef c)) as [request|e]; [|done].
  destruct (JSON_stringify h2 resp) as [response|e]; [|done].
  rewrite lookup_insert_eq. cbn [from_option id].
  by rewrite <- !app_assoc.
Qed.

(** The [catch] block, statement by statement. *)
Lemma catchBlock_run c error h t ps :
  catchBlock c error {| state := {| heap := h; trace := t |}; prototypes := ps |} =
  let d := fresh (dom h) in
  let copy := ownProps h (VRef c) in
  let machine st := {| state := st; prototypes := ps |} in
  match get_message (<[d := copy]> h) error with
  | Throw e => (Throw e, machine {| heap := <[d := copy]> h; trace := t |})
  | Normal msg =>
      let h4 := <[d := <["error" := msg]> copy]> h in
      match JSON_stringify h4 error with
      | Throw e => (Throw e, machine {| heap := h4; trace := t |})
      | Normal enc =>
          let props := <["encodedError" := enc]> (<["error" := msg]> copy) in
          (Normal tt,
           machine
             {| heap := <[d := props]> h;
                trace := t ++ [TrackEvent "ApiRepoCreateFailed" d props; CallNext error] |})
      end
  end.
Proof.
  unfold catchBlock.
  cbv [mbind M_bind spread new_object set_property update_heap on_state trackEvent emit
       next stringify eval heap trace state prototypes String.eqb Ascii.eqb Bool.eqb
       andb].
  cbv zeta.
  destruct (get_message _ error) as [msg|e]; [|done].
  rewrite alter_insert_eq.
  destruct (JSON_stringify _ error) as [enc|e]; [|done].
  rewrite alter_insert_eq, lookup_insert_eq. cbn [from_option id].
  by rewrite <- app_assoc.
Qed.

(** Symbolic runs of the handler. *)
Ltac run_handler :=
  try unfold postRepos; unfold runPostRepos, asyncHandler;
  rewrite handler_prefix; cbv zeta;
  unfold try_catch.

Ltac enter_try :=
  rewrite tryBlock_run; cbv zeta; rewrite mergedStore_payload; cbn [from_option id].

(** The [catch] block completes, or throws on the message, or throws on
    the serialization. *)
Ltac catch_cases :=
  rewrite catchBlock_run; cbv zeta;
  match goal with
  | |- context [get_message ?h ?v] => destruct (get_message h v) as [?msg|?e]
  end;
  [ match goal with
    | |- context [JSON_stringify ?h ?v] => destruct (JSON_stringify h v) as [?enc|?e]
    end
  | ].

(** After the downstream call has settled as [r]: the response is sent,
    or a serialization of the [try] block throws, or the call rejected;
    the last three go through the [catch] block. *)
Ltac after_call r :=
  destruct r as [?resp|?e];
  [ match goal with
    | |- context [JSON_stringify ?h (VRef ?c)] =>
        destruct (JSON_stringify h (VRef c)) as [?request|?e]
    end;
    [ match goal with
      | |- context [JSON_stringify ?h ?v] =>
          destruct (JSON_stringify h v) as [?response|?e]
      end;
      [ | catch_cases ]
    | catch_cases ]
  | catch_cases ].

(** Every way the handler can go, for any request. *)
Ltac handler_cases :=
  run_handler;
  destruct (optional_createContext _ _) as [?ctx|?e];
  [ enter_try;
    let r := fresh "r" in
    let h2 := fresh "h2" in
    destruct (CreateRepository _ _ _ _ _ _ _) as [r h2];
    after_call r
  | ].

(** The same once the context and the downstream call are known. *)
Ltac handler_cases_with Hctx Hcall r :=
  run_handler; rewrite Hctx; enter_try; rewrite Hcall; after_call r.





(** X18: the first event is emitted with the headers as they were
    copied, before the body is merged in and before the two keys are
    deleted.  Its properties are the own properties of the headers,
    ['__proto__'] apart, which the copy hands to the setter: for headers
    without that key, as Node makes them, they are exactly the own
    properties of the headers. *)
Lemma attempt_event_is_header_snapshot providers req h :
  head (events (trace (postRepos CreateRepository providers req h))) =
    Some ("ApiRepoCreateRequest", delete "__proto__" (ownProps h (headers req))) ∧
  (ownProps h (headers req) !! "__proto__" = None →
   head (events (trace (postRepos CreateRepository providers req h))) =
     Some ("ApiRepoCreateRequest", ownProps h (headers req))).
Proof.
  assert (head (events (trace (postRepos CreateRepository providers req h))) =
    Some ("ApiRepoCreateRequest", delete "__proto__" (ownProps h (headers req))))
    as Hhead by (handler_cases; reflexivity).
  split; [done|]. intros Hno. by rewrite Hhead, delete_id.
Qed.

(** X20: the object the first event was handed is the payload object:
    once the handler is through the deletions it holds neither key, and
    no statement of the handler writes to it afterwards: at the end it is
    as the downstream operation left it. *)
Lemma payload_object_after_downstream providers req h ctx r h2 :
  optional_createContext (customizedNewRepositoryLogic providers) req = Normal ctx →
  CreateRepository req (organization req) (customizedNewRepositoryLogic providers)
    ctx (payloadLoc h) Api (mergedStore h req) = (r, h2) →
  is_Some (h2 !! payloadLoc h) →
  heap (postRepos CreateRepository providers req h) !! payloadLoc h = h2 !! payloadLoc h.
Proof.
  intros Hctx Hcall Hlive.
  pose proof (fresh_not_allocated h2 _ Hlive) as Hne.
  handler_cases_with Hctx Hcall r; cbn [heap state];
    rewrite ?lookup_insert_ne by done; done.
Qed.

(** X19: the two later events do not carry the keys, when the downstream
    operation has not put them into the payload object. *)
Lemma later_events_without_keys providers req h ctx r h2 payload :
  optional_createContext (customizedNewRepositoryLogic providers) req = Normal ctx →
  CreateRepository req (organization req) (customizedNewRepositoryLogic providers)
    ctx (payloadLoc h) Api (mergedStore h req) = (r, h2) →
  h2 !! payloadLoc h = Some payload →
  payload !! "access_token" = None → payload !! "authorization" = None →
  ∀ name props,
    (name, props) ∈ tail (events (trace (postRepos CreateRepository providers req h))) →
    props !! "access_token" = None ∧ props !! "authorization" = None.
Proof.
  intros Hctx Hcall Hpayload Hk1 Hk2 name props.
  handler_cases_with Hctx Hcall r; cbn [events omap list_omap tail mbind ownProps];
    rewrite ?Hpayload; cbn [from_option id];
    intros Hin; repeat (apply elem_of_cons in Hin as [Hin|Hin]; simplify_eq);
    try (by apply elem_of_nil in Hin);
    by rewrite ?lookup_insert_ne by done.
Qed.

(** C2, where the code departs from it: a request whose headers carry
    [authorization].  The first event, ['ApiRepoCreateRequest'], is
    emitted with that key among its properties; the two deletions come
    after it.  The payload handed on and the success event are without
    it. *)
Theorem attempt_event_carries_authorization :
  let st := postRepos (resolvesWith createdRepo) noLogic sampleRequest sampleStore in
  head (events (trace st)) =
    Some ("ApiRepoCreateRequest",
          {[ "authorization" := VStr "Bearer secret";
             "content-type" := VStr "application/json" ]}) ∧
  forwarded (trace st) =
    [ {[ "content-type" := VStr "application/json"; "name" := VStr "repo" ]} ] ∧
  map (λ e, (e.1, hasKey "authorization" e.2)) (events (trace st)) =
    [("ApiRepoCreateRequest", true); ("ApiRepoCreateRequestSuccess", false)].
Proof. vm_compute. done. Qed.

(** C3, as the code has it: when the downstream operation resolves and
    the serializations of the payload and of the response for the success
    event do not throw, the handler sets status 201, emits the success
    event with the two texts and sends the downstream result as the body;
    [next] is not called. *)
Theorem success_response_when_serializable providers req h ctx resp h2 request response :
  optional_createContext (customizedNewRepositoryLogic providers) req = Normal ctx →
  CreateRepository req (organization req) (customizedNewRepositoryLogic providers)
    ctx (payloadLoc h) Api (mergedStore h req) = (Normal resp, h2) →
  JSON_stringify h2 (VRef (payloadLoc h)) = Normal request →
  JSON_stringify h2 resp = Normal response →
  let st := postRepos CreateRepository providers req h in
  trace st =
    [attemptEvent h req; downstreamCall providers req ctx h; ResStatus 201;
     TrackEvent "ApiRepoCreateRequestSuccess" (fresh (dom h2))
       {[ "request" := request; "response" := response ]};
     ResJson resp] ∧
  statuses (trace st) = [201%Z] ∧
  sentBodies (trace st) = [resp] ∧
  nextErrors (trace st) = [].
Proof.
  intros Hctx Hcall Hreq Hresp st.
  assert (trace st =
    [attemptEvent h req; downstreamCall providers req ctx h; ResStatus 201;
     TrackEvent "ApiRepoCreateRequestSuccess" (fresh (dom h2))
       {[ "request" := request; "response" := response ]};
     ResJson resp]) as Htrace.
  { subst st. run_handler. rewrite Hctx. enter_try. by rewrite Hcall, Hreq, Hresp. }
  by rewrite Htrace.
Qed.

(** C4, as the code has it: when the downstream operation rejects with an
    error whose message can be read and whose serialization does not
    throw, the handler copies the payload object into a new one, adds
    [error] and [encodedError] to the copy, emits ['ApiRepoCreateFailed']
    with the copy and then calls [next] with the error it caught; the
    payload object, the error and every other object are as the
    downstream operation left them. *)
Theorem downstream_failure_reported providers req h ctx error h2 payload msg enc :
  let c := payloadLoc h in
  let d := fresh (dom h2) in
  optional_createContext (customizedNewRepositoryLogic providers) req = Normal ctx →
  CreateRepository req (organization req) (customizedNewRepositoryLogic providers)
    ctx c Api (mergedStore h req) = (Throw error, h2) →
  h2 !! c = Some payload →
  get_message (<[d := payload]> h2) error = Normal msg →
  JSON_stringify (<[d := <["error" := msg]> payload]> h2) error = Normal enc →
  let st := postRepos CreateRepository providers req h in
  let props := <["encodedError" := enc]> (<["error" := msg]> payload) in
  trace st =
    [attemptEvent h req; downstreamCall providers req ctx h;
     TrackEvent "ApiRepoCreateFailed" d props; CallNext error] ∧
  d ≠ c ∧
  heap st !! c = Some payload ∧
  heap st !! d = Some props ∧
  ∀ l, l ≠ d → heap st !! l = h2 !! l.
Proof.
  intros c d Hctx Hcall Hpayload Hmsg Henc st props.
  assert (d ≠ c) as Hne by (apply fresh_not_allocated; by rewrite Hpayload).
  assert (st = {| heap := <[d := props]> h2;
                  trace := [attemptEvent h req; downstreamCall providers req ctx h;
                            TrackEvent "ApiRepoCreateFailed" d props; CallNext error] |})
    as ->.
  { subst st c d props. run_handler. rewrite Hctx. enter_try. rewrite Hcall.
    rewrite catchBlock_run. cbv zeta.
    cbn [ownProps]. rewrite Hpayload. cbn [from_option id]. by rewrite Hmsg, Henc. }
  cbn [heap trace]. repeat split; [done| |apply lookup_insert_eq|].
  - by rewrite lookup_insert_ne.
  - intros l Hl. by rewrite lookup_insert_ne.
Qed.

(** When a serialization of the [try] block throws, the response is not
    sent although the downstream operation resolved: status 201 stays
    set and [next] is called once, with an error. *)
Lemma success_response_not_sent providers req h ctx resp h2 :
  optional_createContext (customizedNewRepositoryLogic providers) req = Normal ctx →
  CreateRepository req (organization req) (customizedNewRepositoryLogic providers)
    ctx (payloadLoc h) Api (mergedStore h req) = (Normal resp, h2) →
  (∃ e, JSON_stringify h2 (VRef (payloadLoc h)) = Throw e) ∨
  (∃ e, JSON_stringify h2 resp = Throw e) →
  let st := postRepos CreateRepository providers req h in
  statuses (trace st) = [201%Z] ∧ sentBodies (trace st) = [] ∧
  ∃ e, nextErrors (trace st) = [e].
Proof.
  intros Hctx Hcall Hthrows st. subst st.
  run_handler. rewrite Hctx. enter_try. rewrite Hcall.
  destruct (JSON_stringify h2 (VRef _)) as [request|e1] eqn:E1.
  - destruct (JSON_stringify h2 resp) as [response|e2] eqn:E2.
    + exfalso. destruct Hthrows as [[e He]|[e He]]; congruence.
    + catch_cases; cbn; eauto.
  - catch_cases; cbn; eauto.
Qed.

(** X21: when the [catch] block throws, on the message of the error or
    on its serialization, no failure event is emitted and [next] is
    called with what the [catch] block threw. *)
Lemma downstream_failure_replaced providers req h ctx error h2 e :
  let d := fresh (dom h2) in
  let copy := ownProps h2 (VRef (payloadLoc h)) in
  optional_createContext (customizedNewRepositoryLogic providers) req = Normal ctx →
  CreateRepository req (organization req) (customizedNewRepositoryLogic providers)
    ctx (payloadLoc h) Api (mergedStore h req) = (Throw error, h2) →
  get_message (<[d := copy]> h2) error = Throw e ∨
  (∃ msg, get_message (<[d := copy]> h2) error = Normal msg ∧
          JSON_stringify (<[d := <["error" := msg]> copy]> h2) error = Throw e) →
  let st := postRepos CreateRepository providers req h in
  (events (trace st)).*1 = ["ApiRepoCreateRequest"] ∧ nextErrors (trace st) = [e].
Proof.
  intros d copy Hctx Hcall Hthrows st. subst st d copy.
  run_handler. rewrite Hctx. enter_try. rewrite Hcall.
  rewrite catchBlock_run. cbv zeta.
  destruct Hthrows as [Hmsg|(msg & Hmsg & Henc)].
  - by rewrite Hmsg.
  - by rewrite Hmsg, Henc.
Qed.

(** X12: whatever the request, the store and the downstream operation,
    the handler ends in exactly one of two ways: it sends one body with
    [res.json] or it calls [next] once with an error, never both and
    never neither; a body is only sent with status 201 set. *)
Theorem exactly_one_outcome providers req h :
  let t := trace (postRepos CreateRepository providers req h) in
  (List.length (sentBodies t) + List.length (nextErrors t) = 1)%nat ∧
  (sentBodies t = [] ∨ (statuses t = [201%Z] ∧ nextErrors t = [])).
Proof. handler_cases; cbn; auto. Qed.

(** X13: when building the custom context throws, the handler stops
    there: the first event has been emitted, the downstream operation is
    not called, no status is set, no failure event is emitted, and [next]
    gets what [createContext] threw. *)
Theorem context_failure_forwarded providers req h e :
  optional_createContext (customizedNewRepositoryLogic providers) req = Throw e →
  postRepos CreateRepository providers req h =
    {| heap := mergedStore h req; trace := [attemptEvent h req; CallNext e] |}.
Proof. intros Hctx. run_handler. by rewrite Hctx. Qed.

(** X14: without a customization hook, the handler does not write to the
    objects of the request: it merges into an object of its own, so every
    object of the initial store that the downstream operation leaves
    alone is at the end as it was at the start. *)
Theorem request_objects_not_written providers req h l :
  customizedNewRepositoryLogic providers = None →
  is_Some (h !! l) →
  (∀ r h2,
     CreateRepository req (organization req) None VUndefined (payloadLoc h) Api
       (mergedStore h req) = (r, h2) →
     h2 !! l = h !! l) →
  heap (postRepos CreateRepository providers req h) !! l = h !! l.
Proof.
  intros Hlogic Hl Hframe.
  assert (payloadLoc h ≠ l) as Hc by by apply fresh_not_allocated.
  run_handler. rewrite Hlogic. cbn [optional_createContext].
  enter_try.
  destruct (CreateRepository _ _ _ _ _ _ _) as [r h2].
  pose proof (Hframe _ _ eq_refl) as Hl2.
  assert (fresh (dom h2) ≠ l) as Hd by (apply fresh_not_allocated; by rewrite Hl2).
  after_call r; cbn [heap state]; rewrite ?lookup_insert_ne by done; done.
Qed.

(** X15: when the downstream operation resolved and a serialization for
    the success event throws, the handler reports the creation as
    failed: with status 201 already set it emits ['ApiRepoCreateFailed']
    with the payload, the message of the [TypeError] as [error] and
    ['{}'] as [encodedError], and calls [next] with the [TypeError]. *)
Theorem serialization_failure_reported_as_failure providers req h ctx resp h2 payload e :
  optional_createContext (customizedNewRepositoryLogic providers) req = Normal ctx →
  CreateRepository req (organization req) (customizedNewRepositoryLogic providers)
    ctx (payloadLoc h) Api (mergedStore h req) = (Normal resp, h2) →
  h2 !! payloadLoc h = Some payload →
  JSON_stringify h2 (VRef (payloadLoc h)) = Throw e ∨
  (∃ request, JSON_stringify h2 (VRef (payloadLoc h)) = Normal request ∧
              JSON_stringify h2 resp = Throw e) →
  ∃ msg, e = VTypeError msg ∧
    trace (postRepos CreateRepository providers req h) =
      [attemptEvent h req; downstreamCall providers req ctx h; ResStatus 201;
       TrackEvent "ApiRepoCreateFailed" (fresh (dom h2))
         (<["encodedError" := VStr "{}"]> (<["error" := VStr msg]> payload));
       CallNext e].
Proof.
  intros Hctx Hcall Hpayload Hthrows.
  assert (∃ msg, e = VTypeError msg) as [msg ->].
  { destruct Hthrows as [He|(request & _ & He)];
      by eapply JSON_stringify_throws_TypeError. }
  exists msg. split; [done|].
  run_handler. rewrite Hctx. enter_try. rewrite Hcall.
  destruct Hthrows as [He|(request & Hreq & He)].
  - rewrite He. rewrite catchBlock_run. cbv zeta. cbn [ownProps get_message].
    by rewrite Hpayload.
  - rewrite Hreq, He. rewrite catchBlock_run. cbv zeta. cbn [ownProps get_message].
    by rewrite Hpayload.
Qed.

(** X16: the first event and the downstream call are handed one and the
    same object: what a telemetry sink keeps by reference is the payload
    the downstream operation works on.  At the event the object has the
    properties copied from the headers; at the call it has the merged
    ones, and neither of the two keys as a property of its own. *)
Theorem attempt_event_shares_payload_object providers req h ctx :
  optional_createContext (customizedNewRepositoryLogic providers) req = Normal ctx →
  take 2 (trace (postRepos CreateRepository providers req h)) =
    [TrackEvent "ApiRepoCreateRequest" (payloadLoc h)
       (delete "__proto__" (ownProps h (headers req)));
     CallCreateRepository (organization req) (customizedNewRepositoryLogic providers)
       ctx (payloadLoc h) (sanitized h req) Api] ∧
  sanitized h req !! "access_token" = None ∧
  sanitized h req !! "authorization" = None.
Proof.
  intros Hctx. split.
  - run_handler. rewrite Hctx. enter_try.
    destruct (CreateRepository _ _ _ _ _ _ _) as [r h2].
    after_call r; reflexivity.
  - unfold sanitized. split.
    + rewrite lookup_delete_ne by done. apply lookup_delete_eq.
    + apply lookup_delete_eq.
Qed.

(** X17: a body that is [undefined], [null], a number or a boolean adds
    nothing: the payload handed on is the copy of the header map less the
    two keys; for headers without an own ['__proto__'], as Node makes
    them, it is the header map less the two keys. *)
Theorem bodyless_payload_is_headers providers req h ctx :
  optional_createContext (customizedNewRepositoryLogic providers) req = Normal ctx →
  (∀ l, body req ≠ VRef l) → (∀ s, body req ≠ VStr s) →
  forwarded (trace (postRepos CreateRepository providers req h)) =
    [delete "authorization" (delete "access_token"
       (delete "__proto__" (ownProps h (headers req))))] ∧
  (ownProps h (headers req) !! "__proto__" = None →
   forwarded (trace (postRepos CreateRepository providers req h)) =
     [delete "authorization" (delete "access_token" (ownProps h (headers req)))]).
Proof.
  intros Hctx Hobj Hstr.
  assert (sanitized h req =
          delete "authorization" (delete "access_token"
            (delete "__proto__" (ownProps h (headers req)))))
    as Hsanitized.
  { unfold sanitized, headerProps. destruct (body req) as [| | | |s| | |l] eqn:Hbody;
      cbn [ownProps]; rewrite ?delete_empty, ?map_empty_union;
      try by destruct (bodyProtoReachesSetter h req); rewrite ?delete_empty, ?map_empty_union.
    - by destruct (Hstr s).
    - by destruct (Hobj l). }
  assert (forwarded (trace (postRepos CreateRepository providers req h)) =
          [sanitized h req]) as Hforwarded.
  { run_handler. rewrite Hctx. enter_try.
    destruct (CreateRepository _ _ _ _ _ _ _) as [r h2].
    after_call r; reflexivity. }
  rewrite Hforwarded, Hsanitized. split; [done|].
  intros Hno. by rewrite (delete_id _ "__proto__").
Qed.

End CreateRepoProperties.

(** ** The handler on the sample requests *)

Section CreateRepoSamples.
Import Js CreateRepo.



(** A downstream operation that resolves with a plain object: the
    response is sent. *)
Lemma success_response_when_serializable_witness :
  let st := postRepos (resolvesWith createdRepo) noLogic sampleRequest sampleStore in
  statuses (trace st) = [201%Z] ∧ sentBodies (trace st) = [VRef 5] ∧
  nextErrors (trace st) = [].
Proof.
  pose (h2 := (resolvesWith createdRepo sampleRequest (VRef 3) None VUndefined
                 (payloadLoc sampleStore) Api (mergedStore sampleStore sampleRequest)).2).
  pose (text := λ c : Completion Value, match c with Normal v => v | Throw e => e end).
  refine (proj2 (success_response_when_serializable
    (resolvesWith createdRepo) noLogic sampleRequest sampleStore
    VUndefined (VRef 5) h2
    (text (JSON_stringify h2 (VRef 4))) (text (JSON_stringify h2 (VRef 5)))
    _ _ _ _)); vm_compute; reflexivity.
Defined.

(** C3 fails on the code: the downstream operation resolves, and the
    serialization for the success event throws on a circular structure,
    once in the payload (a body that holds itself) and once in the
    response.  In both runs status 201 is set, no body is sent, the
    failure event is emitted and [next] is called with the [TypeError]. *)
Lemma success_response_lost_counterexample :
  let circular := VTypeError "Converting circular structure to JSON" in
  let st1 := postRepos (resolvesWith createdRepo) noLogic sampleRequest circularBodyStore in
  let st2 := postRepos (resolvesWith (λ l, {[ "self" := VRef l ]})) noLogic
               sampleRequest sampleStore in
  (resolvesWith createdRepo sampleRequest (VRef 3) None VUndefined
     (payloadLoc circularBodyStore) Api (mergedStore circularBodyStore sampleRequest)).1 =
    Normal (VRef 5) ∧
  (statuses (trace st1) = [201%Z] ∧ sentBodies (trace st1) = [] ∧
   nextErrors (trace st1) = [circular] ∧
   (events (trace st1)).*1 = ["ApiRepoCreateRequest"; "ApiRepoCreateFailed"]) ∧
  (statuses (trace st2) = [201%Z] ∧ sentBodies (trace st2) = [] ∧
   nextErrors (trace st2) = [circular] ∧
   (events (trace st2)).*1 = ["ApiRepoCreateRequest"; "ApiRepoCreateFailed"]).
Proof. vm_compute. done. Qed.

(** A downstream operation that rejects with a plain error: the failure
    event is emitted, [next] gets that error, and the payload object and
    the error are unchanged. *)
Lemma downstream_failure_reported_witness :
  let st := postRepos (rejectsWith plainError) noLogic sampleRequest sampleStore in
  nextErrors (trace st) = [VRef 5] ∧
  (events (trace st)).*1 = ["ApiRepoCreateRequest"; "ApiRepoCreateFailed"] ∧
  heap st !! payloadLoc sampleStore = Some (sanitized sampleStore sampleRequest) ∧
  heap st !! 5%positive = Some (plainError 5).
Proof.
  pose (h2 := (rejectsWith plainError sampleRequest (VRef 3) None VUndefined
                 (payloadLoc sampleStore) Api (mergedStore sampleStore sampleRequest)).2).
  pose (payload := sanitized sampleStore sampleRequest).
  pose (h4 := <[6%positive := <["error" := VStr "boom"]> payload]> h2).
  pose (text := λ c : Completion Value, match c with Normal v => v | Throw e => e end).
  destruct (downstream_failure_reported (rejectsWith plainError) noLogic
    sampleRequest sampleStore VUndefined (VRef 5) h2 payload (VStr "boom")
    (text (JSON_stringify h4 (VRef 5))))
    as (Htrace & Hne & Hc & Hd & Hframe); [vm_compute; reflexivity..|].
  cbv zeta. rewrite Htrace, Hc, (Hframe 5%positive) by done.
  repeat split; vm_compute; reflexivity.
Defined.

(** C4 fails on the code: the downstream operation rejects with an error
    that holds itself, or with [undefined].  The [catch] block throws, on
    the serialization of the error or on reading its message; no failure
    event is emitted and [next] is called with the [TypeError] of the
    [catch] block, not with the error of the downstream operation. *)
Lemma downstream_failure_replaced_counterexample :
  let st1 := postRepos (rejectsWith circularError) noLogic sampleRequest sampleStore in
  let st2 := postRepos (rejectsWithValue VUndefined) noLogic sampleRequest sampleStore in
  (rejectsWith circularError sampleRequest (VRef 3) None VUndefined
     (payloadLoc sampleStore) Api (mergedStore sampleStore sampleRequest)).1 =
    Throw (VRef 5) ∧
  (nextErrors (trace st1) = [VTypeError "Converting circular structure to JSON"] ∧
   (events (trace st1)).*1 = ["ApiRepoCreateRequest"]) ∧
  (nextErrors (trace st2) =
     [VTypeError "Cannot read properties of undefined (reading 'message')"] ∧
   (events (trace st2)).*1 = ["ApiRepoCreateRequest"]).
Proof. vm_compute. done. Qed.

End CreateRepoSamples.

(** ** More on the version gate and the fallback *)

Section VersionGateCoverage.
Import Js Middleware VersionGate Fallback.

Lemma toLowerCase_app a b : toLowerCase (a ++ b) = toLowerCase a ++ toLowerCase b.
Proof. induction a as [|c a IH]; simpl; [done|]. by rewrite IH. Qed.

Lemma prefix_app p s : String.prefix p (p ++ s) = true.
Proof.
  induction p as [|c p IH]; simpl; [by destruct s|].
  destruct (Ascii.ascii_dec c c); [done|done].
Qed.

(** Refutes the membership [Hin] of a string in the allow-list. *)
Ltac not_listed Hin :=
  unfold hardcodedApiVersions in Hin;
  repeat (apply elem_of_cons in Hin as [Hin|Hin]; [discriminate Hin|]);
  apply elem_of_nil in Hin.

(** X1: on a non-client path, a version supplied as a string passes
    exactly when its lower-case form is in the allow-list; the request
    passed on is the request with the version attached as it was
    supplied, path, query and headers untouched. *)
Theorem version_gate_accepts_allow_listed req v :
  isClientRoute req = false → suppliedVersion req = VStr v →
  ((∃ req', versionGate req = Next req') ↔ toLowerCase v ∈ hardcodedApiVersions) ∧
  (∀ req', versionGate req = Next req' →
     req' = {| path := path req; query := query req; headers := headers req;
               apiVersion := VStr v |}).
Proof.
  intros Hclient Hv. rewrite (versionGate_string req v Hclient Hv).
  destruct (String.eqb v "") eqn:Hempty.
  { apply String.eqb_eq in Hempty. subst v. split; [|done].
    split; [by intros [? ?]|]. intros Hin. exfalso. by not_listed Hin. }
  destruct (String.eqb (toLowerCase v) "2016-09-22_preview") eqn:Hretired.
  { apply String.eqb_eq in Hretired. rewrite Hretired. split; [|done].
    split; [by intros [? ?]|]. intros Hin. exfalso. by not_listed Hin. }
  destruct (indexOf hardcodedApiVersions (toLowerCase v) <? 0)%Z eqn:Hidx.
  - apply indexOf_negative in Hidx. split; [|done].
    split; [by intros [? ?]|done].
  - split.
    + split; [|eauto]. intros _.
      destruct (decide (toLowerCase v ∈ hardcodedApiVersions)) as [|Hnot]; [done|].
      apply indexOf_negative in Hnot. congruence.
    + intros req' Heq. by injection Heq.
Qed.

(** An allow-listed version in the header, no query. *)
Lemma version_gate_accepts_allow_listed_witness :
  versionGate (sampleRequest "/acme/repos" VUndefined (VStr "2017-03-08")) =
    Next {| path := "/acme/repos"; query := {[ "api-version" := VUndefined ]};
            headers := {[ "api-version" := VStr "2017-03-08" ]};
            apiVersion := VStr "2017-03-08" |}.
Proof.
  destruct (version_gate_accepts_allow_listed
    (sampleRequest "/acme/repos" VUndefined (VStr "2017-03-08")) "2017-03-08"
    eq_refl eq_refl) as [Hiff Hshape].
  destruct (proj2 Hiff) as [req' Hreq'].
  - apply list_elem_of_In. simpl. auto 10.
  - rewrite Hreq'. f_equal. apply (Hshape req' Hreq').
Defined.

(** X2: on a non-client path, a non-empty version that is neither the
    retired one nor, in lower case, in the allow-list fails with the
    unsupported-version error and status 422, and nothing later runs. *)
Theorem version_gate_unsupported req v :
  isClientRoute req = false → suppliedVersion req = VStr v →
  v ≠ "" → toLowerCase v ≠ toLowerCase "2016-09-22_Preview" →
  toLowerCase v ∉ hardcodedApiVersions →
  ∀ later, run_stages (versionGate :: later) req =
    NextError (ErrJson (jsonError (VStr unsupportedVersionMessage) 422)).
Proof.
  intros Hclient Hv Hne Hretired Hnot later. apply run_stages_error.
  rewrite (versionGate_string req v Hclient Hv).
  apply String.eqb_neq in Hne. rewrite Hne.
  change (toLowerCase "2016-09-22_Preview") with "2016-09-22_preview" in Hretired.
  apply String.eqb_neq in Hretired. rewrite Hretired.
  apply indexOf_negative in Hnot. by rewrite Hnot.
Qed.

(** A version that was never issued. *)
Lemma version_gate_unsupported_witness :
  run_stages [versionGate; versionGate]
    (sampleRequest "/acme/repos" (VStr "2020-01-01") VUndefined) =
  NextError (ErrJson (jsonError (VStr unsupportedVersionMessage) 422)).
Proof.
  apply (version_gate_unsupported
    (sampleRequest "/acme/repos" (VStr "2020-01-01") VUndefined) "2020-01-01").
  - reflexivity.
  - reflexivity.
  - discriminate.
  - discriminate.
  - intros Hin. by not_listed Hin.
Defined.

(** X3: every error the middleware makes itself carries status 422. *)
Theorem version_gate_errors_are_422 req je :
  versionGate req = NextError (ErrJson je) → statusCode je = 422%Z.
Proof.
  unfold versionGate. destruct (isClientRoute req); [done|]. cbv zeta.
  destruct (negb (truthy (suppliedVersion req))); [by intros [= <-]|].
  destruct (call_toLowerCase (suppliedVersion req)) as [lowered|e]; [|done].
  destruct (String.eqb lowered _); [by intros [= <-]|].
  destruct (indexOf hardcodedApiVersions lowered <? 0)%Z; [by intros [= <-]|done].
Qed.

Lemma version_gate_errors_are_422_witness :
  statusCode (jsonError (VStr unsupportedVersionMessage) 422) = 422%Z.
Proof.
  exact (version_gate_errors_are_422
    (sampleRequest "/acme/repos" (VStr "2020-01-01") VUndefined) _ eq_refl).
Defined.

(** X4: on a non-client path, a version that is supplied but is no
    string (a query parameter given twice is an array) makes the
    middleware throw on [toLowerCase]: the request ends with that
    [TypeError], not with one of the 422 errors. *)
Theorem version_gate_non_string_throws req :
  isClientRoute req = false →
  truthy (suppliedVersion req) = true →
  (∀ s, suppliedVersion req ≠ VStr s) →
  ∀ later, run_stages (versionGate :: later) req =
    NextError (ErrThrown (VTypeError "apiVersion.toLowerCase is not a function")).
Proof.
  intros Hclient Htruthy Hnot later. apply run_stages_error.
  unfold versionGate. rewrite Hclient. cbv zeta. rewrite Htruthy. cbn [negb].
  destruct (suppliedVersion req) as [| | | |s| | |]; try done.
  by destruct (Hnot s).
Qed.

(** The query holds an array, the header a good version. *)
Lemma version_gate_non_string_throws_witness :
  run_stages [versionGate; versionGate]
    (sampleRequest "/acme/repos" (VRef 1) (VStr "2019-10-01")) =
  NextError (ErrThrown (VTypeError "apiVersion.toLowerCase is not a function")).
Proof.
  apply (version_gate_non_string_throws
    (sampleRequest "/acme/repos" (VRef 1) (VStr "2019-10-01"))).
  - reflexivity.
  - reflexivity.
  - intros s. discriminate.
Defined.

(** X5: the middleware is idempotent: running it again on what it passed
    on changes nothing, and after an error it does not run again. *)
Theorem version_gate_idempotent req :
  run_stages [versionGate; versionGate] req = versionGate req.
Proof.
  cbn [run_stages]. destruct (versionGate req) as [req'|e] eqn:Hgate; [|done].
  assert (versionGate req' = Next req') as ->; [|done].
  revert Hgate. unfold versionGate.
  destruct (isClientRoute req) eqn:Hclient.
  { intros [= <-]. by rewrite Hclient. }
  cbv zeta. destruct (negb (truthy (suppliedVersion req))) eqn:Htruthy; [done|].
  destruct (call_toLowerCase (suppliedVersion req)) as [lowered|e] eqn:Hlower; [|done].
  destruct (String.eqb lowered _) eqn:Hretired; [done|].
  destruct (indexOf hardcodedApiVersions lowered <? 0)%Z eqn:Hidx; [done|].
  intros [= <-].
  change (isClientRoute {| path := path req; query := query req; headers := headers req;
                           apiVersion := suppliedVersion req |})
    with (isClientRoute req).
  change (suppliedVersion {| path := path req; query := query req; headers := headers req;
                             apiVersion := suppliedVersion req |})
    with (suppliedVersion req).
  by rewrite Hclient, Htruthy, Hlower, Hretired, Hidx.
Qed.

(** X6: the exemption is by prefix and in any letter case: a path that
    begins with ['/client'], however the letters are cased and whatever
    follows, passes unchanged, with or without a version. *)
Theorem client_prefix_bypasses_gate req pre rest :
  path req = pre ++ rest → toLowerCase pre = "/client" →
  versionGate req = Next req.
Proof.
  intros Hpath Hpre. apply versionGate_client_route.
  unfold isClientRoute, startsWith. cbv zeta.
  rewrite Hpath, toLowerCase_app, Hpre. apply prefix_app.
Qed.

(** A path that is no client route by its segments, with a retired
    version. *)
Lemma client_prefix_bypasses_gate_witness :
  let req := sampleRequest "/CLIENTele/x" (VStr "2016-09-22_Preview") VUndefined in
  versionGate req = Next req.
Proof.
  exact (client_prefix_bypasses_gate
    (sampleRequest "/CLIENTele/x" (VStr "2016-09-22_Preview") VUndefined)
    "/CLIENT" "ele/x" eq_refl eq_refl).
Defined.

Section WithNotFound.
Variable NotFound : string → RouteError.

(** X7: the version gate followed by the fallback lets a client path
    through unchanged and never lets another path through: a request the
    gate accepts ends with the not-found error, and one it rejects ends
    with the gate's error. *)
Theorem gate_then_fallback req :
  run_stages [versionGate; fallback NotFound] req =
    if isClientRoute req then Next req
    else match versionGate req with
         | Next _ => NextError (NotFound notFoundMessage)
         | NextError e => NextError e
         end.
Proof.
  cbn [run_stages]. destruct (isClientRoute req) eqn:Hclient.
  { rewrite versionGate_client_route by done. unfold fallback. by rewrite Hclient. }
  destruct (versionGate req) as [req'|e] eqn:Hgate; [|done].
  assert (isClientRoute req' = false) as Hclient'.
  { revert Hgate. unfold versionGate. rewrite Hclient. cbv zeta.
    destruct (negb _); [done|]. destruct (call_toLowerCase _); [|done].
    destruct (String.eqb _ _); [done|]. destruct (_ <? _)%Z; [done|].
    by intros [= <-]. }
  unfold fallback. by rewrite Hclient'.
Qed.

End WithNotFound.

End VersionGateCoverage.

(** ** More on the organization middleware *)

Section OrgResolverCoverage.
Import Js Middleware OrgResolver OrgResolverSamples.

(** X8: for a key without organization scopes, or one that is not
    authorized for the requested organization, the middleware decides
    without the directory: the outcome is the same whatever the lookup
    would return or throw, so such a caller learns nothing about which
    organizations exist. *)
Theorem directory_not_consulted_when_unauthorized req ops :
  organizationScopes (apiKeyToken req) = None ∨
  hasOrganizationScope (apiKeyToken req) (params_org req) = false →
  resolveOrganization (withOperations req ops) = resolveOrganization req.
Proof.
  intros Hun. rewrite !resolveOrganization_cases. cbn.
  destruct (organizationScopes (apiKeyToken req)); [|done].
  destruct Hun as [?|Hscope]; [done|]. by rewrite Hscope.
Qed.

(** A key for [orgA] asks for [orgB], with a directory that knows it and
    with one that throws. *)
Lemma directory_not_consulted_when_unauthorized_witness :
  resolveOrganization (keyRequest "orgB" (Some ["orgA"]) (Throw (VStr "unknown"))) =
  resolveOrganization (keyRequest "orgB" (Some ["orgA"]) (Normal (VRef 1))).
Proof.
  apply (directory_not_consulted_when_unauthorized
    (keyRequest "orgB" (Some ["orgA"]) (Normal (VRef 1)))
    {| getOrganization := λ _, Throw (VStr "unknown") |}).
  right. reflexivity.
Defined.

(** X9: each failure of the middleware has one cause, for any token:
    status 412 exactly for a token without organization scopes (an empty
    list of scopes is not that case), 401 for a token that has scopes but
    not the requested one, 400 for a lookup that throws, around what it
    threw; the middleware never passes on a value it threw itself. *)
Theorem resolve_organization_failure_causes req e :
  resolveOrganization req = NextError e →
  ∃ je, e = ErrJson je ∧
    ((statusCode je = 412%Z ∧ organizationScopes (apiKeyToken req) = None) ∨
     (statusCode je = 401%Z ∧ is_Some (organizationScopes (apiKeyToken req)) ∧
      hasOrganizationScope (apiKeyToken req) (params_org req) = false) ∨
     (statusCode je = 400%Z ∧ is_Some (organizationScopes (apiKeyToken req)) ∧
      hasOrganizationScope (apiKeyToken req) (params_org req) = true ∧
      getOrganization (operations req) (params_org req) = Throw (error je))).
Proof.
  rewrite resolveOrganization_cases.
  destruct (organizationScopes (apiKeyToken req)) as [grants|] eqn:Hscopes.
  - destruct (hasOrganizationScope (apiKeyToken req) (params_org req)) eqn:Hhas.
    + destruct (getOrganization (operations req) (params_org req)) as [o|ex] eqn:Hget;
        [done|].
      intros [= <-]. eexists. split; [done|]. right. right. eauto.
    + intros [= <-]. eexists. split; [done|]. right. left. eauto.
  - intros [= <-]. eexists. split; [done|]. by left.
Qed.

(** A token with an empty list of scopes: 401, not 412. *)
Lemma resolve_organization_failure_causes_witness :
  ∃ je, ErrJson (jsonError (VStr notAuthorizedMessage) 401) = ErrJson je ∧
        statusCode je = 401%Z.
Proof.
  destruct (resolve_organization_failure_causes
    (keyRequest "acme" (Some []) (Normal (VRef 1)))
    (ErrJson (jsonError (VStr notAuthorizedMessage) 401)) eq_refl)
    as (je & Heq & Hcause).
  exists je. split; [exact Heq|].
  injection Heq as <-. reflexivity.
Defined.

End OrgResolverCoverage.

(** ** More on the administrative permission gate *)

Section AdministrationCoverage.
Import Js Administration.

(** X10: once the check has settled, the gate calls [next] exactly once,
    and an error it passes never holds the reason of a rejection: its
    inner error is [null] and its message the fixed one. *)
Theorem admin_gate_one_call_no_reason req :
  ∃ call, requirePortalAdministrationPermission req = [call] ∧
    ∀ err, call = Fail err → innerError err = VNull ∧ message err = denialMessage.
Proof.
  destruct req as [[p]]. unfold requirePortalAdministrationPermission, then_catch. cbn.
  destruct p as [v|reason].
  - destruct (strict_eq_true v); eexists; (split; [done|]); intros err; [done|].
    by intros [= <-].
  - eexists. split; [done|]. intros err. by intros [= <-].
Qed.

End AdministrationCoverage.

(** ** The order of collaborators *)

Section CollaboratorCoverage.
Import Js Collaborators CollaboratorOrder.
Variable localeCompare : string → string → Z.

(** X11: [compareCollaborators] at its edges.  A missing left operand
    gives [undefined] without a comparison and without a throw, whatever
    the right one; a missing right operand is compared as the text
    ['undefined']; a left operand that is there but has no login throws;
    two collaborators with logins are compared by their logins. *)
Theorem compareCollaborators_edges :
  (∀ b, compareCollaborators localeCompare None b = Normal VUndefined) ∧
  (∀ s, compareCollaborators localeCompare (Some (withLogin s)) None =
          Normal (VNum (localeCompare s "undefined"))) ∧
  (∀ a b, login a = VUndefined →
          ∃ e, compareCollaborators localeCompare (Some a) b = Throw e) ∧
  (∀ a b s t, login a = VStr s → login b = VStr t →
          compareCollaborators localeCompare (Some a) (Some b) =
            Normal (VNum (localeCompare s t))).
Proof.
  repeat split.
  - intros a b Ha. unfold compareCollaborators. rewrite Ha. eauto.
  - intros a b s t Ha Hb. unfold compareCollaborators, optional_login.
    by rewrite Ha, Hb.
Qed.

End CollaboratorCoverage.

(** ** More runs of the handler on the sample requests *)

Section CreateRepoCoverageSamples.
Import Js CreateRepo CreateRepoFixtures.

(** A hook that throws: [next] gets what it threw. *)
Lemma context_failure_forwarded_witness :
  nextErrors (trace (postRepos (resolvesWith createdRepo) throwingLogic
                       sampleRequest sampleStore)) = [VStr "no context"].
Proof.
  rewrite (context_failure_forwarded (resolvesWith createdRepo) throwingLogic
             sampleRequest sampleStore (VStr "no context") eq_refl).
  reflexivity.
Defined.

(** The headers object of the sample request after a successful run. *)
Lemma request_objects_not_written_witness :
  heap (postRepos (resolvesWith createdRepo) noLogic sampleRequest sampleStore)
    !! 1%positive = sampleStore !! 1%positive.
Proof.
  apply (request_objects_not_written (resolvesWith createdRepo) noLogic
           sampleRequest sampleStore 1%positive eq_refl).
  - vm_compute. eauto.
  - intros r h2 Hcall. injection Hcall as _ <-. vm_compute. reflexivity.
Defined.

(** A response that holds itself: the creation is reported as failed. *)
Lemma serialization_failure_reported_as_failure_witness :
  let op := resolvesWith (λ l, {[ "self" := VRef l ]}) in
  ∃ msg,
    VTypeError "Converting circular structure to JSON" = VTypeError msg ∧
    trace (postRepos op noLogic sampleRequest sampleStore) =
      [attemptEvent sampleStore sampleRequest;
       downstreamCall noLogic sampleRequest VUndefined sampleStore; ResStatus 201;
       TrackEvent "ApiRepoCreateFailed" (fresh (dom (storeAfter op)))
         (<["encodedError" := VStr "{}"]>
            (<["error" := VStr msg]> (sanitized sampleStore sampleRequest)));
       CallNext (VTypeError "Converting circular structure to JSON")].
Proof.
  cbv zeta.
  refine (serialization_failure_reported_as_failure
    (resolvesWith (λ l, {[ "self" := VRef l ]})) noLogic sampleRequest sampleStore
    VUndefined (VRef 5) (storeAfter (resolvesWith (λ l, {[ "self" := VRef l ]})))
    (sanitized sampleStore sampleRequest)
    (VTypeError "Converting circular structure to JSON") _ _ _ _).
  - reflexivity.
  - vm_compute. reflexivity.
  - vm_compute. reflexivity.
  - right. eexists. split; vm_compute; reflexivity.
Defined.

(** The first event and the call are handed the object at 4. *)
Lemma attempt_event_shares_payload_object_witness :
  handedObject <$> take 2 (trace (postRepos (resolvesWith createdRepo) noLogic
                                    sampleRequest sampleStore)) =
    [Some 4%positive; Some 4%positive].
Proof.
  rewrite (proj1 (attempt_event_shares_payload_object (resolvesWith createdRepo) noLogic
                    sampleRequest sampleStore VUndefined eq_refl)).
  reflexivity.
Defined.

(** The sample request without its body: the headers without the bearer
    token. *)
Lemma bodyless_payload_is_headers_witness :
  forwarded (trace (postRepos (resolvesWith createdRepo) noLogic
                      bodylessRequest sampleStore)) =
    [ {[ "content-type" := VStr "application/json" ]} ].
Proof.
  destruct (bodyless_payload_is_headers (resolvesWith createdRepo) noLogic
              bodylessRequest sampleStore VUndefined eq_refl) as [_ Hplain].
  - intros l. discriminate.
  - intros s. discriminate.
  - rewrite Hplain by (vm_compute; reflexivity). vm_compute. reflexivity.
Defined.

(** The success event of the sample run carries neither key. *)
Lemma later_events_without_keys_witness :
  Forall (λ e, e.2 !! "access_token" = None ∧ e.2 !! "authorization" = None)
    (tail (events (trace (postRepos (resolvesWith createdRepo) noLogic
                            sampleRequest sampleStore)))).
Proof.
  apply Forall_forall. intros [name props] Hin.
  apply (later_events_without_keys (resolvesWith createdRepo) noLogic sampleRequest
           sampleStore VUndefined (Normal (VRef 5))
           (storeAfter (resolvesWith createdRepo))
           (sanitized sampleStore sampleRequest)
           eq_refl) with (name := name); [vm_compute; reflexivity..|exact Hin].
Defined.

(** The payload object after the sample run is the sanitized payload. *)
Lemma payload_object_after_downstream_witness :
  heap (postRepos (resolvesWith createdRepo) noLogic sampleRequest sampleStore)
    !! payloadLoc sampleStore = Some (sanitized sampleStore sampleRequest).
Proof.
  rewrite (payload_object_after_downstream (resolvesWith createdRepo) noLogic
             sampleRequest sampleStore VUndefined (Normal (VRef 5))
             (storeAfter (resolvesWith createdRepo)) eq_refl).
  - vm_compute. reflexivity.
  - vm_compute. reflexivity.
  - vm_compute. eauto.
Defined.

(** An error that holds itself replaces itself by a [TypeError]. *)
Lemma downstream_failure_replaced_witness :
  nextErrors (trace (postRepos (rejectsWith circularError) noLogic
                       sampleRequest sampleStore)) =
    [VTypeError "Converting circular structure to JSON"].
Proof.
  refine (proj2 (downstream_failure_replaced (rejectsWith circularError) noLogic
    sampleRequest sampleStore VUndefined (VRef 5)
    (storeAfter (rejectsWith circularError))
    (VTypeError "Converting circular structure to JSON") _ _ _)).
  - reflexivity.
  - vm_compute. reflexivity.
  - right. exists (VStr "boom"). split; vm_compute; reflexivity.
Defined.

End CreateRepoCoverageSamples.

(** ** The company-specific routes *)

Section StartupCoverage.
Import Js Startup.

(** X22: the router tests [index] and calls [rootIndex].  With no
    deployment, or one whose [routes.api.index] is missing or falsy, the
    setup neither calls [rootIndex] nor throws: the outcome is the same
    whatever [rootIndex] is.  With a truthy [index], the outcome is that
    of calling [rootIndex] when it is a function, and a [TypeError] when
    it is missing. *)
Theorem company_routes_hook (d : option Deployment) :
  (truthy (optional_index (optional_api d)) = false →
     ∀ f, hookCompanyRoutes (withRootIndex d f) =
            Normal (optional_index (optional_api d))) ∧
  (∀ a, optional_api d = Some a → truthy (index a) = true →
     match rootIndex a with
     | Some outcome => hookCompanyRoutes d = outcome
     | None => ∃ msg, hookCompanyRoutes d = Throw (VTypeError msg)
     end).
Proof.
  unfold hookCompanyRoutes, withRootIndex. cbv zeta. split.
  - intros Hfalsy f. destruct (optional_api d) as [a|] eqn:Ha.
    + cbn in *. by rewrite Hfalsy.
    + by rewrite Ha.
  - intros a Ha Hindex. rewrite Ha. cbn [optional_index optional_rootIndex_call].
    rewrite Hindex. destruct (rootIndex a); eauto.
Qed.

End StartupCoverage.
